(** * SAP automation agent (sap.py): credential store, session resolver,
      SOAP client and batch dispatcher.

    A shallow embedding of [src/sap.py].  Python dictionaries indexed by
    session id are [gmap string _]; Python exceptions are a result type
    [pyres]; the shared credential store and the log of network calls are
    threaded explicitly through a [World]. *)

From stdpp Require Import base option list gmap strings pretty fin_maps.

Open Scope string_scope.

(** ** Python exceptions and results *)

(** The exception classes the module raises or catches.  All of them are
    subclasses of Python's [Exception]; [Timeout] is
    [requests.exceptions.Timeout], [OtherException] any other subclass. *)
Inductive exn : Type :=
| ValueError (msg : string)
| KeyError (key : string)
| AttributeError (msg : string)
| Timeout (msg : string)
| OtherException (msg : string).

(** [str(e)] *)
Definition exn_str (e : exn) : string :=
  match e with
  | ValueError m => m
  | KeyError k => "'" +:+ k +:+ "'"
  | AttributeError m => m
  | Timeout m => m
  | OtherException m => m
  end.

(** [isinstance(e, requests.exceptions.Timeout)] *)
Definition is_Timeout (e : exn) : bool :=
  match e with Timeout _ => true | _ => false end.

Inductive pyres (A : Type) : Type :=
| Ret (a : A)
| Raise (e : exn).
Arguments Ret {A} a.
Arguments Raise {A} e.

Definition pybind {A B} (m : pyres A) (k : A → pyres B) : pyres B :=
  match m with
  | Ret a => k a
  | Raise e => Raise e
  end.

Notation "'let*' x ':=' m 'in' k" := (pybind m (λ x, k))
  (at level 10, x name, m at level 100, k at level 200).

(** [try: body except Exception as e: handler(e)] *)
Definition try_except {A} (body : pyres A) (handler : exn → pyres A) : pyres A :=
  match body with
  | Ret a => Ret a
  | Raise e => handler e
  end.

Definition returns {A} (m : pyres A) : Prop := ∃ a, m = Ret a.
Definition raises {A} (m : pyres A) : Prop := ∃ e, m = Raise e.

(** [sub] occurs in [s]. *)
Definition contains (sub s : string) : Prop :=
  ∃ pre post, s = pre +:+ sub +:+ post.

(** ** Session management: [SessionCredentialStore] *)

(** The dict [{"user": user, "password": password}]. *)
Record Credentials : Type := {
  user : string;
  password : string
}.

(** [_credentials] maps session ids to credential dicts;
    [_default_credentials] is [None] or a dict with both keys (never an
    empty dict, so its truth value is that of [is not None]). *)
Record SessionCredentialStore : Type := {
  _credentials : gmap string Credentials;
  _default_credentials : option Credentials
}.

(** Truth value of an optional environment variable: set and non-empty. *)
Definition env_truthy (v : option string) : bool :=
  match v with
  | Some s => negb (String.eqb s "")
  | None => false
  end.

(** [__init__]: [SAP_USER] and [SAP_PASSWORD] as read from the environment. *)
Definition SessionCredentialStore_init (SAP_USER SAP_PASSWORD : option string)
  : SessionCredentialStore :=
  {| _credentials := ∅;
     _default_credentials :=
       if env_truthy SAP_USER && env_truthy SAP_PASSWORD
       then Some {| user := default "" SAP_USER;
                    password := default "" SAP_PASSWORD |}
       else None |}.

Definition set_credentials (self : SessionCredentialStore)
    (session_id user_ password_ : string) : SessionCredentialStore :=
  {| _credentials :=
       <[session_id := {| user := user_; password := password_ |}]>
         (_credentials self);
     _default_credentials := _default_credentials self |}.

Definition not_found_message (session_id : string) : string :=
  "未找到 session " +:+ session_id +:+
  " 的凭据，且未设置默认凭据。请先调用 set_sap_credentials 设置凭据。".

Definition get_credentials (self : SessionCredentialStore)
    (session_id : string) : pyres Credentials :=
  match _credentials self !! session_id with
  | Some c => Ret c
  | None =>
      match _default_credentials self with
      | Some d => Ret d
      | None => Raise (ValueError (not_found_message session_id))
      end
  end.

Definition has_credentials (self : SessionCredentialStore)
    (session_id : string) : bool :=
  bool_decide (is_Some (_credentials self !! session_id))
  || bool_decide (is_Some (_default_credentials self)).

Definition clear_credentials (self : SessionCredentialStore)
    (session_id : string) : SessionCredentialStore :=
  if bool_decide (is_Some (_credentials self !! session_id))
  then {| _credentials := delete session_id (_credentials self);
          _default_credentials := _default_credentials self |}
  else self.

(** A history of store operations, as issued by the sessions. *)
Inductive store_op : Type :=
| OpSet (session_id user_ password_ : string)
| OpClear (session_id : string).

Definition op_session (o : store_op) : string :=
  match o with OpSet sid _ _ | OpClear sid => sid end.

Definition apply_op (st : SessionCredentialStore) (o : store_op)
  : SessionCredentialStore :=
  match o with
  | OpSet sid u p => set_credentials st sid u p
  | OpClear sid => clear_credentials st sid
  end.

Definition run_ops (ops : list store_op) (st : SessionCredentialStore)
  : SessionCredentialStore :=
  foldl apply_op st ops.

(** No [set] for session [S] occurs in the history. *)
Definition never_set (S : string) (ops : list store_op) : Prop :=
  Forall (λ o, match o with OpSet sid _ _ => sid ≠ S | OpClear _ => True end) ops.

(** ** Python values *)

#[local] Set Warnings "-register-all".

(** Values that reach the module from JSON tool arguments and from
    [xmltodict.parse].  [PFloat m e] stands for the finite float [m * 2^e]. *)
Inductive pyval : Type :=
| PNone
| PBool (b : bool)
| PInt (n : Z)
| PFloat (m e : Z)
| PStr (s : string)
| PList (xs : list pyval)
| PDict (kvs : list (string * pyval)).

(** Python truth value. *)
Definition truthy (v : pyval) : bool :=
  match v with
  | PNone => false
  | PBool b => b
  | PInt n => negb (n =? 0)%Z
  | PFloat m _ => negb (m =? 0)%Z
  | PStr s => negb (String.eqb s "")
  | PList xs => match xs with [] => false | _ :: _ => true end
  | PDict kvs => match kvs with [] => false | _ :: _ => true end
  end.

(** [a or b] *)
Definition py_or (a b : pyval) : pyval := if truthy a then a else b.

(** [d[k]] on the entries of a dict, [None] when the key is absent. *)
Fixpoint dict_lookup (kvs : list (string * pyval)) (k : string) : option pyval :=
  match kvs with
  | [] => None
  | (k', v) :: rest => if String.eqb k' k then Some v else dict_lookup rest k
  end.

(** [d.get(k, dflt)] *)
Definition dict_get (kvs : list (string * pyval)) (k : string) (dflt : pyval) : pyval :=
  default dflt (dict_lookup kvs k).

(** [v.get(k)] on an arbitrary value: only dicts have the method. *)
Definition py_get (v : pyval) (k : string) : pyres pyval :=
  match v with
  | PDict kvs => Ret (dict_get kvs k PNone)
  | _ => Raise (AttributeError "object has no attribute 'get'")
  end.

(** The double quote character, for the literals of the source that hold one. *)
Definition dq : string := String (Ascii.ascii_of_nat 34) EmptyString.

(** ** Caller context *)

(** [ctx.request_context] with its optional [request_id] attribute. *)
Record RequestContext : Type := {
  request_id : option pyval
}.

(** [ctx.session]; [client_params] is [Some v] when the attribute exists. *)
Record ServerSession : Type := {
  client_params : option pyval
}.

(** The MCP [Context]; a field is [None] when [hasattr] answers [False]. *)
Record Context : Type := {
  request_context : option RequestContext;
  session : option ServerSession
}.

(** ** Configuration: [SAPConfig] *)

(** An entry of [SAPConfig.SERVICES]. *)
Record Service : Type := {
  svc_url : string;
  svc_action : string
}.

Definition sap_host : string := "https://vhivcqasci.sap.inventec.com:44300/sap/bc/srt/rfc/sap/".
Definition rfc_ns : string := "urn:sap-com:document:sap:rfc:functions:".

Definition SERVICES : list (string * Service) :=
  [ ("SO",
     {| svc_url := sap_host +:+ "zws_bapi_salesorder_create/100/zws_bapi_salesorder_create_sev/zws_bapi_salesorder_create_binding";
        svc_action := dq +:+ rfc_ns +:+ "ZWS_BAPI_SALESORDER_CREATE:ZBAPI_SALESORDER_CREATERequest" +:+ dq |});
    ("STO",
     {| svc_url := sap_host +:+ "zsd_sto_create/100/zsd_sto_create_svr/zsd_sto_create_binding";
        svc_action := dq +:+ rfc_ns +:+ "ZSD_STO_CREATE:ZSD_STO_CREATERequest" +:+ dq |});
    ("DN",
     {| svc_url := sap_host +:+ "zws_bapi_outb_delivery_create/100/zws_bapi_outb_delivery_create/bind_dn_create";
        svc_action := dq +:+ rfc_ns +:+ "ZWS_BAPI_OUTB_DELIVERY_CREATE_STO:ZBAPI_OUTB_DELIVERY_CREATE_STORequest" +:+ dq |});
    ("MAT",
     {| svc_url := sap_host +:+ "zws_bapi_material_savedata/100/zws_bapi_material_savedata/bind_material";
        svc_action := dq +:+ rfc_ns +:+ "ZWS_BAPI_MATERIAL_SAVEDATA:ZBAPI_MATERIAL_SAVEDATARequest" +:+ dq |});
    ("SRC",
     {| svc_url := sap_host +:+ "zsd_source_list_maintain/100/zsd_source_list_maintain_svr/zsd_source_list_maintain_binding";
        svc_action := dq +:+ rfc_ns +:+ "ZSD_SOURCE_LIST_MAINTAIN:ZSD_SOURCE_LIST_MAINTAINRequest" +:+ dq |});
    ("INF",
     {| svc_url := sap_host +:+ "zws_info_record_maintain/100/zws_info_record_maintain_svr/zws_info_record_maintain_binding";
        svc_action := dq +:+ rfc_ns +:+ "ZWS_INFO_RECORD_MAINTAIN:ZSD_INFO_RECORD_MAINTAINRequest" +:+ dq |});
    ("QTY",
     {| svc_url := sap_host +:+ "zsd_kitting_flow_change/100/zsd_kitting_flow_change_svr/zsd_kitting_flow_change_bind";
        svc_action := dq +:+ rfc_ns +:+ "ZSD_KITTING_FLOW_CHANGE:ZSD_KITTING_FLOW_CHANGERequest" +:+ dq |}) ].

(** [SERVICES[key]] *)
Fixpoint services_lookup (tbl : list (string * Service)) (key : string) : pyres Service :=
  match tbl with
  | [] => Raise (KeyError key)
  | (k, v) :: rest => if String.eqb k key then Ret v else services_lookup rest key
  end.

(** ** Network *)

(** The arguments of [session.post]. *)
Record Request : Type := {
  req_url : string;
  req_data : string;
  req_auth : string * string;
  req_headers : list (string * string);
  req_verify : bool;
  req_timeout : Z
}.

(** The fields of a [requests.Response] the module reads. *)
Record Response : Type := {
  status_code : Z;
  text : string
}.

(** The state the tools share: the global [credential_store] and the
    requests handed to the transport so far, oldest first. *)
Record World : Type := {
  credential_store : SessionCredentialStore;
  sent : list Request
}.

(** [SAPClient] instance attributes. *)
Record SAPClient : Type := {
  url : string;
  action : string;
  client_user : string;
  client_password : string
}.

(** [SAPClient.__init__] *)
Definition SAPClient_init (key session_id : string) (store : SessionCredentialStore)
  : pyres SAPClient :=
  let* cfg := services_lookup SERVICES key in
  let* creds := get_credentials store session_id in
  Ret {| url := svc_url cfg;
         action := svc_action cfg;
         client_user := user creds;
         client_password := password creds |}.

(** The keyword arguments of the [create_sales_order] tool. *)
Record SalesOrderArgs : Type := {
  CUST_PO : pyval;
  CUST_PO_DATE : pyval;
  MATERIAL : pyval;
  QTY : pyval;
  UUID : pyval;
  ORDER_TYPE : pyval;
  SALES_ORG : pyval;
  SALES_CHANNEL : pyval;
  SALES_DIVISION : pyval;
  SOLD_TO_PARTY : pyval;
  SHIP_TO_PARTY : pyval;
  PLANT : pyval;
  SHIPPING_POINT : pyval
}.

(** The keyword arguments of the [create_sto_po] tool. *)
Record StoPoArgs : Type := {
  PR_NUMBER : pyval;
  PR_ITEM : pyval;
  sto_UUID : pyval;
  PUR_GROUP : pyval;
  PUR_ORG : pyval;
  PUR_PLANT : pyval;
  VENDOR : pyval;
  DOC_TYPE : pyval
}.

(** ** A sample deployment

    Concrete stand-ins for the runtime and the remote end, used by the
    examples at the end of the file. *)

Definition sample_repr (v : pyval) : string := "<repr>".

Definition sample_hash (s : string) : Z := Z.of_nat (String.length s).

Definition sample_reply : string :=
  "<soapenv:Envelope><soapenv:Body>created</soapenv:Body></soapenv:Envelope>".

(** Parses [sample_reply] and rejects every other text. *)
Definition sample_parse (t : string) : pyres pyval :=
  if String.eqb t sample_reply
  then Ret (PDict [ ("soapenv:Envelope", PDict [ ("soapenv:Body", PStr "created") ]) ])
  else Raise (OtherException "not well-formed (invalid token)").

(** Parses every text to a document whose root is not an envelope. *)
Definition parse_html (t : string) : pyres pyval :=
  Ret (PDict [ ("html", PNone) ]).

Definition sample_dumps (v : pyval) : string :=
  match v with
  | PList xs => "[" +:+ pretty (length xs) +:+ " results]"
  | _ => "null"
  end.

(** Answers the first request with status 200, refuses the connection of
    the second, lets the third time out and answers 200 from then on. *)
Definition flaky_transport (history : list Request) (req : Request) : pyres Response :=
  match length history with
  | 1 => Raise (OtherException "Connection refused")
  | 2 => Raise (Timeout "Read timed out")
  | _ => Ret {| status_code := 200; text := sample_reply |}
  end.

(** Answers every request with status 201 and a well-formed envelope. *)
Definition transport_201 (history : list Request) (req : Request) : pyres Response :=
  Ret {| status_code := 201; text := sample_reply |}.

Definition sample_client : SAPClient :=
  {| url := "https://sap.example/so";
     action := "urn:example";
     client_user := "alice";
     client_password := "secret" |}.

(** A fresh process with [SAP_USER] and [SAP_PASSWORD] set. *)
Definition world_with_default : World :=
  {| credential_store := SessionCredentialStore_init (Some "alice") (Some "secret");
     sent := [] |}.

(** A fresh process without default credentials. *)
Definition world_without_default : World :=
  {| credential_store := SessionCredentialStore_init None None;
     sent := [] |}.

Definition sample_orders : list (list (string * pyval)) :=
  [ [ ("CUST_PO", PStr "PO1"); ("MATERIAL", PStr "M1"); ("QTY", PInt 5) ];
    [ ("CUST_PO", PStr "PO2"); ("MATERIAL", PStr "M2"); ("QTY", PInt 1) ];
    [ ("CUST_PO", PStr "PO3"); ("MATERIAL", PStr "M3"); ("QTY", PInt 2) ] ].

Section Agent.

(** What the module takes from its runtime and its libraries:
    [repr] of floats and containers, the built-in [hash] of a string,
    [xmltodict.parse], [json.dumps(_, ensure_ascii=False, indent=2)],
    the value of [SAPConfig.REQUEST_TIMEOUT], and the remote end: what
    [session.post] answers to a request, given the requests sent before. *)
Variable py_repr : pyval → string.
Variable py_hash : string → Z.
Variable xmltodict_parse : string → pyres pyval.
Variable json_dumps : pyval → string.
Variable REQUEST_TIMEOUT : Z.
Variable transport : list Request → Request → pyres Response.

(** [str(v)], which is also what an f-string field [{v}] renders. *)
Definition py_str (v : pyval) : string :=
  match v with
  | PNone => "None"
  | PBool true => "True"
  | PBool false => "False"
  | PInt n => pretty n
  | PStr s => s
  | PFloat _ _ | PList _ | PDict _ => py_repr v
  end.

(** *** Session resolution *)

Definition _get_session_id (ctx : option Context) : string :=
  match ctx with
  | Some c =>
      match request_context c with
      | Some rc =>
          let session_id := default (PStr "default") (request_id rc) in
          let session_id :=
            match session c with
            | Some sess =>
                match client_params sess with
                | Some cp =>
                    let client_info := py_str cp in
                    if truthy (PStr client_info)
                    then PInt (py_hash client_info)
                    else PStr "default"
                | None => session_id
                end
            | None => session_id
            end in
          py_str session_id
      | None => "default"
      end
  | None => "default"
  end.

(** *** Session management tools *)

Definition set_sap_credentials (username password_ : string)
    (ctx : option Context) (w : World) : World * string :=
  let session_id :=
    match ctx with
    | Some c =>
        match request_context c with
        | Some rc =>
            let session_id := default (PStr "default") (request_id rc) in
            let session_id :=
              match session c with
              | Some sess =>
                  match client_params sess with
                  | Some cp =>
                      let client_info := py_str cp in
                      if truthy (PStr client_info)
                      then PInt (py_hash client_info)
                      else PStr "default"
                  | None => session_id
                  end
              | None => session_id
              end in
            py_str session_id
        | None => "default"
        end
    | None => "default"
    end in
  ({| credential_store :=
        set_credentials (credential_store w) session_id username password_;
      sent := sent w |},
   "已为会话 " +:+ session_id +:+ " 设置 SAP 凭据（用户：" +:+ username +:+ "）").

Definition check_session_credentials (ctx : option Context) (w : World)
  : pyres string :=
  let session_id :=
    match ctx with
    | Some c =>
        match request_context c with
        | Some rc =>
            let session_id := default (PStr "default") (request_id rc) in
            let session_id :=
              match session c with
              | Some sess =>
                  match client_params sess with
                  | Some cp =>
                      let client_info := py_str cp in
                      if truthy (PStr client_info)
                      then PInt (py_hash client_info)
                      else PStr "default"
                  | None => session_id
                  end
              | None => session_id
              end in
            py_str session_id
        | None => "default"
        end
    | None => "default"
    end in
  if has_credentials (credential_store w) session_id then
    let* creds := get_credentials (credential_store w) session_id in
    Ret ("会话 " +:+ session_id +:+ " 已设置凭据（用户：" +:+ user creds +:+ "）")
  else
    Ret ("会话 " +:+ session_id +:+ " 未设置凭据").

(** *** [SAPClient.post_soap] *)

Definition soap_envelope (body_content : string) : string :=
  "<soapenv:Envelope xmlns:soapenv=" +:+ dq +:+
  "http://schemas.xmlsoap.org/soap/envelope/" +:+ dq +:+
  " xmlns:urn=" +:+ dq +:+ "urn:sap-com:document:sap:rfc:functions" +:+ dq +:+
  "><soapenv:Header/><soapenv:Body>" +:+ body_content +:+
  "</soapenv:Body></soapenv:Envelope>".

Definition soap_request (self : SAPClient) (body_content : string) : Request :=
  {| req_url := url self;
     req_data := soap_envelope body_content;
     req_auth := (client_user self, client_password self);
     req_headers := [ ("Content-Type", "text/xml; charset=utf-8");
                      ("Accept", "text/xml");
                      ("SOAPAction", action self) ];
     req_verify := false;
     req_timeout := REQUEST_TIMEOUT |}.

(** [session.post(...)]: the request is logged and the remote end answers. *)
Definition session_post (req : Request) (w : World) : World * pyres Response :=
  ({| credential_store := credential_store w; sent := sent w ++ [req] |},
   transport (sent w) req).

(** [v.get(k1) or v.get(k2) or v.get(k3)], evaluated left to right. *)
Definition get_first (v : pyval) (k1 k2 k3 : string) : pyres pyval :=
  let* a := py_get v k1 in
  if truthy a then Ret a else
  let* b := py_get v k2 in
  if truthy b then Ret b else
  py_get v k3.

(** The branch of [post_soap] taken on status 200. *)
Definition interpret_ok (response : Response) : pyres string :=
  try_except
    (let* parsed := xmltodict_parse (text response) in
     let* env := get_first parsed "soap-env:Envelope" "soapenv:Envelope" "SOAP-ENV:Envelope" in
     if truthy env then
       let* body := get_first env "soap-env:Body" "soapenv:Body" "SOAP-ENV:Body" in
       Ret (if truthy body then py_str body else text response)
     else Ret (text response))
    (λ _, Ret (text response)).

Definition post_soap (self : SAPClient) (body_content : string) (w : World)
  : World * pyres string :=
  let '(w', posted) := session_post (soap_request self body_content) w in
  (w',
   try_except
     (let* response := posted in
      if (status_code response =? 200)%Z then interpret_ok response
      else Ret ("HTTP Error " +:+ py_str (PInt (status_code response)) +:+ ": "
                +:+ text response))
     (λ e, if is_Timeout e
           then Ret ("请求超时：超过 " +:+ py_str (PInt REQUEST_TIMEOUT) +:+ " 秒未响应")
           else Ret ("连接错误: " +:+ exn_str e))).

(** *** SAP operation tools *)

(** [x if x else d] *)
Definition or_default (x : pyval) (d : string) : pyval :=
  if truthy x then x else PStr d.

Definition uuid_tag (uuid : pyval) : string :=
  if truthy uuid then "<UUID>" +:+ py_str uuid +:+ "</UUID>" else "".

(** The f-string [xml_body] of [create_sales_order]. *)
Definition sales_order_xml (a : SalesOrderArgs) : string :=
  let order_type_val := or_default (ORDER_TYPE a) "ZIES" in
  let sales_org_val := or_default (SALES_ORG a) "TW01" in
  let sales_channel_val := or_default (SALES_CHANNEL a) "03" in
  let sales_division_val := or_default (SALES_DIVISION a) "01" in
  let sold_to_val := or_default (SOLD_TO_PARTY a) "HRCTO-IMX" in
  let ship_to_val := or_default (SHIP_TO_PARTY a) "HRCTO-MX" in
  let plant_val := or_default (PLANT a) "TP01" in
  let shipping_pt_val := or_default (SHIPPING_POINT a) "TW01" in
  let cust_po_val := or_default (CUST_PO a) "TEST_PO" in
  let cust_po_date_val := or_default (CUST_PO_DATE a) "2025-01-01" in
  "<urn:ZBAPI_SALESORDER_CREATE>" +:+ uuid_tag (UUID a) +:+
  "<CUST_PO>" +:+ py_str cust_po_val +:+ "</CUST_PO>" +:+
  "<CUST_PO_DATE>" +:+ py_str cust_po_date_val +:+ "</CUST_PO_DATE>" +:+
  "<IT_SO_ITEM><item><MATERIAL_NO>000010</MATERIAL_NO>" +:+
  "<MATERIAL>" +:+ py_str (MATERIAL a) +:+ "</MATERIAL>" +:+
  "<UNIT>PCE</UNIT>" +:+
  "<QTY>" +:+ py_str (QTY a) +:+ "</QTY>" +:+
  "<PLANT>" +:+ py_str plant_val +:+ "</PLANT>" +:+
  "<SHIPPING_POINT>" +:+ py_str shipping_pt_val +:+ "</SHIPPING_POINT>" +:+
  "<DELIVERY_DATE>" +:+ py_str cust_po_date_val +:+ "</DELIVERY_DATE>" +:+
  "</item></IT_SO_ITEM>" +:+
  "<ORDER_TYPE>" +:+ py_str order_type_val +:+ "</ORDER_TYPE>" +:+
  "<SALES_CHANNEL>" +:+ py_str sales_channel_val +:+ "</SALES_CHANNEL>" +:+
  "<SALES_DIVISION>" +:+ py_str sales_division_val +:+ "</SALES_DIVISION>" +:+
  "<SALES_ORG>" +:+ py_str sales_org_val +:+ "</SALES_ORG>" +:+
  "<SHIP_TO_PARTY>" +:+ py_str ship_to_val +:+ "</SHIP_TO_PARTY>" +:+
  "<SOLD_TO_PARTY>" +:+ py_str sold_to_val +:+ "</SOLD_TO_PARTY>" +:+
  "</urn:ZBAPI_SALESORDER_CREATE>".

(** [SAPClient(key, session_id).post_soap(xml_body)]: the constructor may
    raise, and then nothing is sent. *)
Definition call_service (key session_id xml_body : string) (w : World)
  : World * pyres string :=
  match SAPClient_init key session_id (credential_store w) with
  | Ret client => post_soap client xml_body w
  | Raise e => (w, Raise e)
  end.

Definition create_sales_order (a : SalesOrderArgs) (ctx : option Context)
    (w : World) : World * pyres string :=
  let session_id := _get_session_id ctx in
  call_service "SO" session_id (sales_order_xml a) w.

(** The f-string [xml_body] of [create_sto_po]. *)
Definition sto_po_xml (a : StoPoArgs) : string :=
  let pur_group_val := or_default (PUR_GROUP a) "999" in
  let pur_org_val := or_default (PUR_ORG a) "TW10" in
  let pur_plant_val := or_default (PUR_PLANT a) "TP01" in
  let vendor_val := or_default (VENDOR a) "ICC-CP60" in
  let doc_type_val := or_default (DOC_TYPE a) "NB" in
  "<urn:ZSD_STO_CREATE>" +:+ uuid_tag (sto_UUID a) +:+
  "<DOC_TYPE>" +:+ py_str doc_type_val +:+ "</DOC_TYPE><LGORT/>" +:+
  "<PR_NUMBER>" +:+ py_str (PR_NUMBER a) +:+ "</PR_NUMBER>" +:+
  "<PUR_GROUP>" +:+ py_str pur_group_val +:+ "</PUR_GROUP>" +:+
  "<PUR_ITEM><item><BNFPO>" +:+ py_str (PR_ITEM a) +:+ "</BNFPO></item></PUR_ITEM>" +:+
  "<PUR_ORG>" +:+ py_str pur_org_val +:+ "</PUR_ORG>" +:+
  "<PUR_PLANT>" +:+ py_str pur_plant_val +:+ "</PUR_PLANT>" +:+
  "<VENDOR>" +:+ py_str vendor_val +:+ "</VENDOR>" +:+
  "</urn:ZSD_STO_CREATE>".

Definition create_sto_po (a : StoPoArgs) (ctx : option Context)
    (w : World) : World * pyres string :=
  let session_id := _get_session_id ctx in
  call_service "STO" session_id (sto_po_xml a) w.

(** *** Batch operations *)

(** The keyword arguments [create_single_order] reads from [order_data]. *)
Definition order_args (order_data : list (string * pyval)) : SalesOrderArgs :=
  {| CUST_PO := dict_get order_data "CUST_PO" (PStr "");
     CUST_PO_DATE := dict_get order_data "CUST_PO_DATE" (PStr "");
     MATERIAL := dict_get order_data "MATERIAL" (PStr "");
     QTY := dict_get order_data "QTY" (PInt 0);
     UUID := dict_get order_data "UUID" (PStr "");
     ORDER_TYPE := dict_get order_data "ORDER_TYPE" (PStr "ZIES");
     SALES_ORG := dict_get order_data "SALES_ORG" (PStr "TW01");
     SALES_CHANNEL := dict_get order_data "SALES_CHANNEL" (PStr "03");
     SALES_DIVISION := dict_get order_data "SALES_DIVISION" (PStr "01");
     SOLD_TO_PARTY := dict_get order_data "SOLD_TO_PARTY" (PStr "HRCTO-IMX");
     SHIP_TO_PARTY := dict_get order_data "SHIP_TO_PARTY" (PStr "HRCTO-MX");
     PLANT := dict_get order_data "PLANT" (PStr "TP01");
     SHIPPING_POINT := dict_get order_data "SHIPPING_POINT" (PStr "TW01") |}.

(** The correlation key echoed in a result:
    [order_data.get("CUST_PO", "unknown")]. *)
Definition order_tag (order_data : list (string * pyval)) : pyval :=
  dict_get order_data "CUST_PO" (PStr "unknown").

Definition create_single_order (ctx : option Context)
    (order_data : list (string * pyval)) (w : World) : World * pyval :=
  let '(w', outcome) := create_sales_order (order_args order_data) ctx w in
  (w',
   match outcome with
   | Ret result =>
       PDict [ ("success", PBool true);
               ("order", order_tag order_data);
               ("result", PStr result) ]
   | Raise e =>
       PDict [ ("success", PBool false);
               ("order", order_tag order_data);
               ("error", PStr (exn_str e)) ]
   end).

(** The thread pool.  [futures] holds one slot per submitted task, in
    submission order; [schedule] lists task indices in the order in which
    the workers complete them.  A task that completes stores its return
    value in its own slot.  A batch task touches the shared world twice, to
    read the credential store (which no batch task writes) and to post its
    one request, so running the tasks one after the other in the order of
    their requests covers every interleaving of the workers. *)
Fixpoint run_pool (tasks : list (World → World * pyval)) (schedule : list nat)
    (w : World) (futures : list (option pyval)) : World * list (option pyval) :=
  match schedule with
  | [] => (w, futures)
  | i :: rest =>
      match tasks !! i with
      | Some task =>
          let '(w', r) := task w in
          run_pool tasks rest w' (<[i := Some r]> futures)
      | None => run_pool tasks rest w futures
      end
  end.

(** [[future.result() for future in futures]]: defined once every future
    is done, in the order of [futures]. *)
Definition collect (futures : list (option pyval)) : option (list pyval) :=
  mapM id futures.

(** The list [results] of [batch_create_sales_orders] under a schedule. *)
Definition batch_results (orders : list (list (string * pyval)))
    (ctx : option Context) (schedule : list nat) (w : World)
  : World * option (list pyval) :=
  let tasks := create_single_order ctx <$> orders in
  let '(w', futures) := run_pool tasks schedule w (replicate (length tasks) None) in
  (w', collect futures).

Definition batch_create_sales_orders (orders : list (list (string * pyval)))
    (ctx : option Context) (schedule : list nat) (w : World)
  : World * option string :=
  let '(w', results) := batch_results orders ctx schedule w in
  (w', (λ rs, json_dumps (PList rs)) <$> results).


(** The header fields of [create_sales_order] after its ten assignments
    [x_val = X if X else default]. *)
Definition sales_order_defaults (a : SalesOrderArgs) : SalesOrderArgs :=
  {| CUST_PO := or_default (CUST_PO a) "TEST_PO";
     CUST_PO_DATE := or_default (CUST_PO_DATE a) "2025-01-01";
     MATERIAL := MATERIAL a;
     QTY := QTY a;
     UUID := UUID a;
     ORDER_TYPE := or_default (ORDER_TYPE a) "ZIES";
     SALES_ORG := or_default (SALES_ORG a) "TW01";
     SALES_CHANNEL := or_default (SALES_CHANNEL a) "03";
     SALES_DIVISION := or_default (SALES_DIVISION a) "01";
     SOLD_TO_PARTY := or_default (SOLD_TO_PARTY a) "HRCTO-IMX";
     SHIP_TO_PARTY := or_default (SHIP_TO_PARTY a) "HRCTO-MX";
     PLANT := or_default (PLANT a) "TP01";
     SHIPPING_POINT := or_default (SHIPPING_POINT a) "TW01" |}.

(** The f-string [xml_body] of [create_outbound_delivery]; the shipping
    point is the constant ['CN60']. *)
Definition outbound_delivery_xml (PO_NUMBER ITEM_NO QUANTITY UUID : pyval) : string :=
  let ship_point_val := "CN60" in
  "<urn:ZBAPI_OUTB_DELIVERY_CREATE_STO>" +:+ uuid_tag UUID +:+
  "<PO_ITEM><item><REF_DOC>" +:+ py_str PO_NUMBER +:+ "</REF_DOC>" +:+
  "<REF_ITEM>" +:+ py_str ITEM_NO +:+ "</REF_ITEM>" +:+
  "<DLV_QTY>" +:+ py_str QUANTITY +:+ "</DLV_QTY>" +:+
  "<SALES_UNIT>EA</SALES_UNIT></item></PO_ITEM>" +:+
  "<SHIP_POINT>" +:+ ship_point_val +:+ "</SHIP_POINT>" +:+
  "</urn:ZBAPI_OUTB_DELIVERY_CREATE_STO>".

Definition create_outbound_delivery (PO_NUMBER ITEM_NO QUANTITY UUID : pyval)
    (ctx : option Context) (w : World) : World * pyres string :=
  let session_id := _get_session_id ctx in
  call_service "DN" session_id (outbound_delivery_xml PO_NUMBER ITEM_NO QUANTITY UUID) w.

(** The f-string [xml_body] of [maintain_info_record]. *)
Definition info_record_xml (MATERIAL UUID PRICE VENDOR PLANT PUR_ORG : pyval) : string :=
  let price_val := or_default PRICE "999" in
  let vendor_val := or_default VENDOR "ICC-CP60" in
  let plant_val := or_default PLANT "TP01" in
  let pur_org_val := or_default PUR_ORG "TW10" in
  "<urn:ZSD_INFO_RECORD_MAINTAIN>" +:+ uuid_tag UUID +:+
  "<CURRENCY>USD</CURRENCY>" +:+
  "<MATERIAL>" +:+ py_str MATERIAL +:+ "</MATERIAL>" +:+
  "<PLANT>" +:+ py_str plant_val +:+ "</PLANT>" +:+
  "<PRICE>" +:+ py_str price_val +:+ "</PRICE>" +:+
  "<PRICE_UNIT>1</PRICE_UNIT>" +:+
  "<PUR_ORG>" +:+ py_str pur_org_val +:+ "</PUR_ORG>" +:+
  "<VENDOR>" +:+ py_str vendor_val +:+ "</VENDOR>" +:+
  "</urn:ZSD_INFO_RECORD_MAINTAIN>".

Definition maintain_info_record (MATERIAL UUID PRICE VENDOR PLANT PUR_ORG : pyval)
    (ctx : option Context) (w : World) : World * pyres string :=
  let session_id := _get_session_id ctx in
  call_service "INF" session_id
    (info_record_xml MATERIAL UUID PRICE VENDOR PLANT PUR_ORG) w.

(** [v == s] for a string literal [s]. *)
Definition py_eq_str (v : pyval) (s : string) : bool :=
  match v with
  | PStr t => String.eqb t s
  | _ => false
  end.

(** The plant and the delivering plant [maintain_sales_view] settles on:
    the pair for the sales organisation and channel when it is one of the
    two known ones, else the arguments, and ['TP01'] for what is still
    empty. *)
Definition sales_view_plants (SALES_ORG DISTR_CHAN PLANT DELYG_PLNT : pyval)
  : pyval * pyval :=
  let '(plant_val, delyg_plnt_val) :=
    if py_eq_str SALES_ORG "CN60" && py_eq_str DISTR_CHAN "03"
    then (PStr "CP60", PStr "CP60")
    else if py_eq_str SALES_ORG "TW01" && py_eq_str DISTR_CHAN "03"
    then (PStr "TP01", PStr "TP01")
    else (PLANT, DELYG_PLNT) in
  (or_default plant_val "TP01", or_default delyg_plnt_val "TP01").

(** The f-string [xml_body] of [maintain_sales_view]. *)
Definition sales_view_xml (MATERIAL SALES_ORG DISTR_CHAN UUID PLANT DELYG_PLNT : pyval)
  : string :=
  let '(plant_val, delyg_plnt_val) :=
    sales_view_plants SALES_ORG DISTR_CHAN PLANT DELYG_PLNT in
  "<urn:ZBAPI_MATERIAL_SAVEDATA>" +:+ uuid_tag UUID +:+
  "<HEADDATA><MATERIAL>" +:+ py_str MATERIAL +:+ "</MATERIAL>" +:+
  "<SALES_VIEW>X</SALES_VIEW><STORAGE_VIEW></STORAGE_VIEW>" +:+
  "<WAREHOUSE_VIEW></WAREHOUSE_VIEW></HEADDATA>" +:+
  "<PLANTDATA><PLANT>" +:+ py_str plant_val +:+ "</PLANT></PLANTDATA>" +:+
  "<SALESDATA><SALES_ORG>" +:+ py_str SALES_ORG +:+ "</SALES_ORG>" +:+
  "<DISTR_CHAN>" +:+ py_str DISTR_CHAN +:+ "</DISTR_CHAN>" +:+
  "<DELYG_PLNT>" +:+ py_str delyg_plnt_val +:+ "</DELYG_PLNT></SALESDATA>" +:+
  "</urn:ZBAPI_MATERIAL_SAVEDATA>".

Definition maintain_sales_view (MATERIAL SALES_ORG DISTR_CHAN UUID PLANT DELYG_PLNT : pyval)
    (ctx : option Context) (w : World) : World * pyres string :=
  let session_id := _get_session_id ctx in
  call_service "MAT" session_id
    (sales_view_xml MATERIAL SALES_ORG DISTR_CHAN UUID PLANT DELYG_PLNT) w.

(** The f-string [xml_body] of [maintain_warehouse_view]. *)
Definition warehouse_view_xml (MATERIAL UUID WHSE_NO : pyval) : string :=
  let whse_no_val := or_default WHSE_NO "WH1" in
  "<urn:ZBAPI_MATERIAL_SAVEDATA>" +:+ uuid_tag UUID +:+
  "<HEADDATA><MATERIAL>" +:+ py_str MATERIAL +:+ "</MATERIAL>" +:+
  "<SALES_VIEW></SALES_VIEW><STORAGE_VIEW></STORAGE_VIEW>" +:+
  "<WAREHOUSE_VIEW>X</WAREHOUSE_VIEW></HEADDATA>" +:+
  "<WAREHOUSENUMBERDATA><WHSE_NO>" +:+ py_str whse_no_val +:+
  "</WHSE_NO></WAREHOUSENUMBERDATA>" +:+
  "</urn:ZBAPI_MATERIAL_SAVEDATA>".

Definition maintain_warehouse_view (MATERIAL UUID WHSE_NO : pyval)
    (ctx : option Context) (w : World) : World * pyres string :=
  let session_id := _get_session_id ctx in
  call_service "MAT" session_id (warehouse_view_xml MATERIAL UUID WHSE_NO) w.

(** The f-string [xml_body] of [maintain_source_list]. *)
Definition source_list_xml (MATERIAL VALID_FROM UUID PLANT VENDOR : pyval) : string :=
  let plant_val := or_default PLANT "TP01" in
  let vendor_val := or_default VENDOR "ICC-CP60" in
  let valid_from_val := or_default VALID_FROM "2025-01-01" in
  "<urn:ZSD_SOURCE_LIST_MAINTAIN>" +:+ uuid_tag UUID +:+
  "<MATERIAL>" +:+ py_str MATERIAL +:+ "</MATERIAL>" +:+
  "<PLANT>" +:+ py_str plant_val +:+ "</PLANT>" +:+
  "<VENDOR>" +:+ py_str vendor_val +:+ "</VENDOR>" +:+
  "<VALID_FROM>" +:+ py_str valid_from_val +:+ "</VALID_FROM>" +:+
  "<VALID_TO>9999-12-31</VALID_TO>" +:+
  "</urn:ZSD_SOURCE_LIST_MAINTAIN>".

Definition maintain_source_list (MATERIAL VALID_FROM UUID PLANT VENDOR : pyval)
    (ctx : option Context) (w : World) : World * pyres string :=
  let session_id := _get_session_id ctx in
  call_service "SRC" session_id
    (source_list_xml MATERIAL VALID_FROM UUID PLANT VENDOR) w.

(** The f-string [xml_body] of [change_kitting_qty]. *)
Definition kitting_qty_xml (KITTING_PO PO_ITEM QUANTITY UUID : pyval) : string :=
  "<urn:ZSD_KITTING_FLOW_CHANGE>" +:+ uuid_tag UUID +:+
  "<KITTING_PO>" +:+ py_str KITTING_PO +:+ "</KITTING_PO>" +:+
  "<PR_ITEM><item><EBELP>" +:+ py_str PO_ITEM +:+ "</EBELP>" +:+
  "<MENGE>" +:+ py_str QUANTITY +:+ "</MENGE></item></PR_ITEM>" +:+
  "</urn:ZSD_KITTING_FLOW_CHANGE>".

Definition change_kitting_qty (KITTING_PO PO_ITEM QUANTITY UUID : pyval)
    (ctx : option Context) (w : World) : World * pyres string :=
  let session_id := _get_session_id ctx in
  call_service "QTY" session_id (kitting_qty_xml KITTING_PO PO_ITEM QUANTITY UUID) w.

(** What an operation tool bound to the service [key] does with the world.
    With credentials for the caller's session it returns, leaves the
    credential store alone and hands one request to the transport: to the
    service's address, under its action and the session's pair.  Without,
    it raises the store's error and the world is as before. *)
Definition tool_contract (key : string)
    (run : option Context → World → World * pyres string) : Prop :=
  ∀ (ctx : option Context) (w : World),
    match get_credentials (credential_store w) (_get_session_id ctx) with
    | Ret creds =>
        ∃ svc xml,
          services_lookup SERVICES key = Ret svc ∧
          returns (run ctx w).2 ∧
          credential_store (run ctx w).1 = credential_store w ∧
          sent (run ctx w).1
          = (sent w ++ [ soap_request {| url := svc_url svc;
                                         action := svc_action svc;
                                         client_user := user creds;
                                         client_password := password creds |}
                           xml ])%list
    | Raise e => run ctx w = (w, Raise e)
    end.

(** *** The connection provider: [SAPClient._get_session] *)

(** [HTTPAdapter(pool_connections=_, pool_maxsize=_, max_retries=_)] *)
Record HTTPAdapter : Type := {
  pool_connections : Z;
  pool_maxsize : Z;
  max_retries : Z
}.

(** A [requests.Session] object: which object it is, and the adapters
    mounted on it by prefix. *)
Record HttpSession : Type := {
  session_object : nat;
  mounts : list (string * HTTPAdapter)
}.

(** [SAPClient._thread_local]: for each thread the value of its [session]
    attribute, when it has one; [created] counts the [Session] objects
    constructed so far and names the next one. *)
Record ThreadLocal : Type := {
  thread_session : gmap nat HttpSession;
  created : nat
}.

Definition thread_local_init : ThreadLocal :=
  {| thread_session := ∅; created := 0 |}.

(** [_get_session], called on thread [thread]. *)
Definition _get_session (thread : nat) (tl : ThreadLocal) : ThreadLocal * HttpSession :=
  match thread_session tl !! thread with
  | Some s => (tl, s)
  | None =>
      let adapter := {| pool_connections := 10; pool_maxsize := 20; max_retries := 3 |} in
      let s := {| session_object := created tl;
                  mounts := [ ("https://", adapter); ("http://", adapter) ] |} in
      ({| thread_session := <[thread := s]> (thread_session tl);
          created := S (created tl) |}, s)
  end.

(** The thread-local state after the threads of [callers] called
    [_get_session], in that order. *)
Definition after_calls (callers : list nat) (tl : ThreadLocal) : ThreadLocal :=
  foldl (λ tl thread, (_get_session thread tl).1) tl callers.

(** What holds of the thread-local sessions at any time: every session
    object was counted when it was made and has the pooled adapter with
    three retries on both prefixes, and no object is the session of two
    threads. *)
Definition thread_local_inv (tl : ThreadLocal) : Prop :=
  (∀ t s, thread_session tl !! t = Some s →
     session_object s < created tl ∧
     mounts s = [ ("https://", {| pool_connections := 10; pool_maxsize := 20;
                                  max_retries := 3 |});
                  ("http://", {| pool_connections := 10; pool_maxsize := 20;
                                 max_retries := 3 |}) ]) ∧
  (∀ t1 t2 s1 s2,
     thread_session tl !! t1 = Some s1 →
     thread_session tl !! t2 = Some s2 →
     session_object s1 = session_object s2 → t1 = t2).

(** ** Properties of the credential store *)

Lemma default_clear_credentials st A :
  _default_credentials (clear_credentials st A) = _default_credentials st.
Proof. unfold clear_credentials. by case_bool_decide. Qed.

Lemma lookup_clear_credentials st A B :
  _credentials (clear_credentials st A) !! B =
  if decide (A = B) then None else _credentials st !! B.
Proof.
  unfold clear_credentials. case_bool_decide as HA; simpl.
  - rewrite lookup_delete. by destruct (decide (A = B)).
  - destruct (decide (A = B)) as [<-|]; [|done].
    by apply eq_None_not_Some.
Qed.

Lemma default_run_ops ops st :
  _default_credentials (run_ops ops st) = _default_credentials st.
Proof.
  revert st. induction ops as [|o ops IH]; intros st; [done|].
  unfold run_ops in *. simpl. rewrite IH.
  destruct o; simpl; [done | apply default_clear_credentials].
Qed.

Lemma never_set_lookup S ops st :
  never_set S ops →
  _credentials st !! S = None →
  _credentials (run_ops ops st) !! S = None.
Proof.
  intros Hns. revert st. induction Hns as [|o ops Ho _ IH]; intros st Hst; [done|].
  unfold run_ops in *. simpl. apply IH. destruct o as [sid u p|sid]; simpl.
  - by rewrite lookup_insert_ne.
  - rewrite lookup_clear_credentials. by case_decide.
Qed.

Lemma get_credentials_ext st st' S :
  _credentials st !! S = _credentials st' !! S →
  _default_credentials st = _default_credentials st' →
  get_credentials st S = get_credentials st' S.
Proof. unfold get_credentials. by intros -> ->. Qed.

(** Stores that agree on session B and on the default still agree on B
    after the same history. *)
Lemma run_ops_agree (ops : list store_op) (s1 s2 : SessionCredentialStore) (B : string) :
  _credentials s1 !! B = _credentials s2 !! B →
  _default_credentials s1 = _default_credentials s2 →
  _credentials (run_ops ops s1) !! B = _credentials (run_ops ops s2) !! B.
Proof.
  revert s1 s2. induction ops as [|o ops IH]; intros s1 s2 H1 H2; [done|].
  unfold run_ops in *. simpl. apply IH.
  - destruct o as [sid u p|sid]; simpl.
    + destruct (decide (sid = B)) as [->|].
      * by rewrite !lookup_insert_eq.
      * by rewrite !lookup_insert_ne.
    + rewrite !lookup_clear_credentials. by case_decide.
  - destruct o; simpl; [done|]. by rewrite !default_clear_credentials.
Qed.

(** Across a whole history, what session B reads depends only on the
    operations issued for B. *)
Lemma run_ops_isolation (ops : list store_op) (st : SessionCredentialStore) (B : string) :
  get_credentials (run_ops ops st) B =
  get_credentials
    (run_ops (filter (λ o, op_session o = B) ops) st) B.
Proof.
  apply get_credentials_ext; [|by rewrite !default_run_ops].
  revert st. induction ops as [|o ops IH]; intros st; [done|].
  rewrite filter_cons. destruct o as [sid u p|sid]; case_decide as Hsid; simpl in Hsid.
  - subst. apply IH.
  - unfold run_ops at 1. simpl. fold (run_ops ops (set_credentials st sid u p)).
    rewrite IH. apply run_ops_agree; simpl; [by rewrite lookup_insert_ne | done].
  - subst. apply IH.
  - unfold run_ops at 1. simpl. fold (run_ops ops (clear_credentials st sid)).
    rewrite IH. apply run_ops_agree.
    + rewrite lookup_clear_credentials. by case_decide.
    + apply default_clear_credentials.
Qed.

(** C1: for distinct sessions A and B, [set_credentials] on A leaves what
    [get_credentials] returns for B unchanged, whatever the store holds;
    and over any history of operations what B reads is what it reads when
    only B's own operations are run, so B never receives a pair that was
    set for another session. *)
Theorem set_credentials_isolation (st : SessionCredentialStore) (A B u p : string) :
  A ≠ B →
  get_credentials (set_credentials st A u p) B = get_credentials st B ∧
  ∀ ops : list store_op,
    get_credentials (run_ops ops (set_credentials st A u p)) B
    = get_credentials (run_ops (filter (λ o, op_session o = B) ops) st) B.
Proof.
  intros Hne. split.
  - apply get_credentials_ext; [|done].
    simpl. by rewrite lookup_insert_ne.
  - intros ops. rewrite run_ops_isolation.
    apply get_credentials_ext; [|by rewrite !default_run_ops].
    apply run_ops_agree; simpl; [by rewrite lookup_insert_ne | done].
Qed.

Lemma string_app_assoc (s1 s2 s3 : string) :
  (s1 +:+ s2) +:+ s3 = s1 +:+ (s2 +:+ s3).
Proof.
  induction s1 as [|a s1 IH]; [done|].
  change (String a ((s1 +:+ s2) +:+ s3) = String a (s1 +:+ s2 +:+ s3)).
  by f_equal.
Qed.

Lemma string_app_nil_r (s : string) : s +:+ "" = s.
Proof.
  induction s as [|a s IH]; [done|].
  change (String a (s +:+ "") = String a s). by f_equal.
Qed.

Lemma not_found_message_names (S : string) :
  contains S (not_found_message S) ∧
  contains "set_sap_credentials" (not_found_message S).
Proof.
  split.
  - by exists "未找到 session ",
      " 的凭据，且未设置默认凭据。请先调用 set_sap_credentials 设置凭据。".
  - exists ("未找到 session " +:+ S +:+ " 的凭据，且未设置默认凭据。请先调用 "),
      " 设置凭据。".
    unfold not_found_message.
    rewrite !string_app_assoc. reflexivity.
Qed.

(** C2: [get_credentials] returns the pair set for the session when there
    is one, else the process default when one is configured, else raises
    an error whose message names the session id and tells the caller to
    set credentials first ([set_sap_credentials]). *)
Theorem get_credentials_precedence (st : SessionCredentialStore) (S : string) :
  (∀ u p, get_credentials (set_credentials st S u p) S
          = Ret {| user := u; password := p |}) ∧
  (∀ c, _credentials st !! S = Some c → get_credentials st S = Ret c) ∧
  (∀ d, _credentials st !! S = None → _default_credentials st = Some d →
        get_credentials st S = Ret d) ∧
  (_credentials st !! S = None → _default_credentials st = None →
   ∃ msg, get_credentials st S = Raise (ValueError msg) ∧
          contains S msg ∧ contains "set_sap_credentials" msg).
Proof.
  unfold get_credentials. repeat split.
  - intros u p. simpl. by rewrite lookup_insert_eq.
  - by intros c ->.
  - by intros d -> ->.
  - intros -> ->. exists (not_found_message S).
    split; [done | apply not_found_message_names].
Qed.

(** C8: [clear_credentials] for S followed by [get_credentials] for S has
    the outcome a session that never called [set_credentials] gets (the
    same pair or the same error); clearing twice is clearing once, and
    clearing a session without an explicit pair changes nothing. *)
Theorem clear_credentials_equivalence
    (st st0 : SessionCredentialStore) (ops : list store_op) (S : string) :
  (_credentials st0 !! S = None →
   _default_credentials st0 = _default_credentials st →
   never_set S ops →
   get_credentials (clear_credentials st S) S
   = get_credentials (run_ops ops st0) S) ∧
  clear_credentials (clear_credentials st S) S = clear_credentials st S ∧
  (_credentials st !! S = None → clear_credentials st S = st).
Proof.
  repeat split.
  - intros H0 Hd Hns. apply get_credentials_ext.
    + rewrite lookup_clear_credentials, decide_True by done.
      symmetry. by apply never_set_lookup.
    + by rewrite default_clear_credentials, default_run_ops.
  - unfold clear_credentials at 1.
    rewrite bool_decide_eq_false_2; [done|].
    rewrite lookup_clear_credentials, decide_True by done.
    by intros [? ?].
  - intros Hnone. unfold clear_credentials.
    rewrite bool_decide_eq_false_2; [done|].
    rewrite Hnone. by intros [? ?].
Qed.

(** C10: [has_credentials] answers true exactly when [get_credentials]
    returns a pair; [get_credentials] raises exactly when the session has
    no explicit pair and no default is configured. *)
Theorem has_credentials_iff_get (st : SessionCredentialStore) (S : string) :
  (has_credentials st S = true ↔ returns (get_credentials st S)) ∧
  (raises (get_credentials st S) ↔
   _credentials st !! S = None ∧ _default_credentials st = None).
Proof.
  unfold has_credentials, get_credentials, returns, raises.
  destruct (_credentials st !! S) as [c|] eqn:Hc;
    destruct (_default_credentials st) as [d|] eqn:Hd; simpl.
  - split; [split; [eauto | done] | split; [by intros [? ?] | by intros [? ?]]].
  - split; [split; [eauto | done] | split; [by intros [? ?] | by intros [? ?]]].
  - split; [split; [eauto | done] | split; [by intros [? ?] | by intros [? ?]]].
  - split; [split; [done | by intros [? ?]] | split; [done | eauto]].
Qed.

(** ** Properties of session resolution *)

Lemma set_sap_credentials_store (u p : string) (ctx : option Context) (w : World) :
  credential_store (set_sap_credentials u p ctx w).1
  = set_credentials (credential_store w) (_get_session_id ctx) u p.
Proof. reflexivity. Qed.

(** C9: without a caller context the session id is the constant
    ['default'], so what one contextless caller sets is what any other
    contextless caller reads. *)
Theorem contextless_session_is_default :
  _get_session_id None = "default" ∧
  (∀ (u p : string) (w : World),
     get_credentials (credential_store (set_sap_credentials u p None w).1)
                     (_get_session_id None)
     = Ret {| user := u; password := p |} ∧
     check_session_credentials None (set_sap_credentials u p None w).1
     = Ret ("会话 default 已设置凭据（用户：" +:+ u +:+ "）")).
Proof.
  split; [done|]. intros u p w.
  unfold check_session_credentials, has_credentials, get_credentials. simpl.
  rewrite lookup_insert_eq. split; [done|].
  by rewrite bool_decide_eq_true_2.
Qed.

(** ** Properties of [post_soap] *)

Lemma post_soap_world (self : SAPClient) (body : string) (w : World) :
  (post_soap self body w).1
  = {| credential_store := credential_store w;
       sent := sent w ++ [soap_request self body] |}.
Proof. reflexivity. Qed.

Lemma interpret_ok_returns (response : Response) :
  returns (interpret_ok response).
Proof.
  unfold interpret_ok, try_except.
  match goal with |- returns (match ?m with _ => _ end) => destruct m end;
    unfold returns; eauto.
Qed.

Lemma post_soap_returns (self : SAPClient) (body : string) (w : World) :
  returns (post_soap self body w).2.
Proof.
  unfold post_soap, session_post. simpl.
  destruct (transport (sent w) (soap_request self body)) as [response|e]; simpl.
  - destruct (status_code response =? 200)%Z; simpl.
    + destruct (interpret_ok_returns response) as [s ->]. by exists s.
    + unfold returns. eauto.
  - destruct (is_Timeout e); unfold returns; eauto.
Qed.

(** C4: [post_soap] always returns a string and never raises: a timeout of
    the transport gives a text that states the configured timeout, any
    other exception of the transport a text that holds the exception's
    message; the request is handed to the transport exactly once. *)
Theorem post_soap_never_raises (self : SAPClient) (body : string) (w : World) :
  returns (post_soap self body w).2 ∧
  sent (post_soap self body w).1 = (sent w ++ [soap_request self body])%list ∧
  (∀ m, transport (sent w) (soap_request self body) = Raise (Timeout m) →
        (post_soap self body w).2
        = Ret ("请求超时：超过 " +:+ pretty REQUEST_TIMEOUT +:+ " 秒未响应")) ∧
  (∀ e, transport (sent w) (soap_request self body) = Raise e →
        is_Timeout e = false →
        (post_soap self body w).2 = Ret ("连接错误: " +:+ exn_str e) ∧
        contains (exn_str e) ("连接错误: " +:+ exn_str e)).
Proof.
  split; [apply post_soap_returns|]. split; [done|]. split.
  - intros m Hm. unfold post_soap, session_post. simpl. by rewrite Hm.
  - intros e He Hne. unfold post_soap, session_post. simpl. rewrite He. simpl.
    rewrite Hne. split; [done|].
    exists "连接错误: ", "". by rewrite string_app_nil_r.
Qed.

Lemma interpret_ok_cases (response : Response) :
  interpret_ok response = Ret (text response) ∨
  ∃ parsed env body,
    xmltodict_parse (text response) = Ret parsed ∧
    get_first parsed "soap-env:Envelope" "soapenv:Envelope" "SOAP-ENV:Envelope" = Ret env ∧
    truthy env = true ∧
    get_first env "soap-env:Body" "soapenv:Body" "SOAP-ENV:Body" = Ret body ∧
    truthy body = true ∧
    interpret_ok response = Ret (py_str body).
Proof.
  unfold interpret_ok.
  destruct (xmltodict_parse (text response)) as [parsed|e] eqn:Hp; simpl; [|by left].
  destruct (get_first parsed _ _ _) as [env|e] eqn:He; simpl; [|by left].
  destruct (truthy env) eqn:Hte; simpl; [|by left].
  destruct (get_first env _ _ _) as [body|e] eqn:Hb; simpl; [|by left].
  destruct (truthy body) eqn:Htb; simpl; [|by left].
  right. by exists parsed, env, body.
Qed.

(** C6 (as the code has it): a response with status 200 is parsed and the
    text of the envelope's body returned, the raw response text when the
    parse fails or finds no envelope or body; a response with any other
    status, other 2xx codes included, gives ['HTTP Error <status>: <text>'].
    Neither case raises. *)
Theorem post_soap_interprets_response
    (self : SAPClient) (body : string) (w : World) (response : Response) :
  transport (sent w) (soap_request self body) = Ret response →
  (status_code response = 200%Z →
     ((post_soap self body w).2 = Ret (text response) ∨
      ∃ parsed env payload,
        xmltodict_parse (text response) = Ret parsed ∧
        get_first parsed "soap-env:Envelope" "soapenv:Envelope" "SOAP-ENV:Envelope" = Ret env ∧
        truthy env = true ∧
        get_first env "soap-env:Body" "soapenv:Body" "SOAP-ENV:Body" = Ret payload ∧
        truthy payload = true ∧
        (post_soap self body w).2 = Ret (py_str payload)) ∧
     (∀ e, xmltodict_parse (text response) = Raise e →
           (post_soap self body w).2 = Ret (text response)) ∧
     (∀ parsed env payload,
        xmltodict_parse (text response) = Ret parsed →
        get_first parsed "soap-env:Envelope" "soapenv:Envelope" "SOAP-ENV:Envelope" = Ret env →
        truthy env = true →
        get_first env "soap-env:Body" "soapenv:Body" "SOAP-ENV:Body" = Ret payload →
        truthy payload = true →
        (post_soap self body w).2 = Ret (py_str payload))) ∧
  (status_code response ≠ 200%Z →
     (post_soap self body w).2
     = Ret ("HTTP Error " +:+ pretty (status_code response) +:+ ": " +:+ text response)).
Proof.
  intros Ht. unfold post_soap, session_post. simpl. rewrite Ht. simpl. split.
  - intros ->. simpl. split; [|split].
    + destruct (interpret_ok_cases response) as [H|(parsed & env & payload & H)].
      * left. by rewrite H.
      * right. exists parsed, env, payload.
        destruct H as (?&?&?&?&?&->). done.
    + intros e He. unfold interpret_ok. by rewrite He.
    + intros parsed env payload Hp He Hte Hb Htb.
      unfold interpret_ok. rewrite Hp. simpl. rewrite He. simpl.
      rewrite Hte, Hb. simpl. by rewrite Htb.
  - intros Hne. apply Z.eqb_neq in Hne. by rewrite Hne.
Qed.

(** ** Properties of the operation tools *)

Lemma call_service_raises (key sid xml : string) (w : World) (e : exn) :
  SAPClient_init key sid (credential_store w) = Raise e →
  call_service key sid xml w = (w, Raise e).
Proof. unfold call_service. by intros ->. Qed.

Lemma call_service_sends (key sid xml : string) (w : World) (client : SAPClient) :
  SAPClient_init key sid (credential_store w) = Ret client →
  returns (call_service key sid xml w).2 ∧
  sent (call_service key sid xml w).1 = (sent w ++ [soap_request client xml])%list ∧
  credential_store (call_service key sid xml w).1 = credential_store w.
Proof.
  unfold call_service. intros ->. split; [apply post_soap_returns | done].
Qed.



(** ** Properties of the batch tool *)

Lemma create_single_order_store (ctx : option Context)
    (order_data : list (string * pyval)) (w : World) :
  credential_store (create_single_order ctx order_data w).1 = credential_store w.
Proof.
  unfold create_single_order, create_sales_order, call_service.
  destruct (SAPClient_init _ _ _); reflexivity.
Qed.

Lemma create_single_order_cases (ctx : option Context)
    (order_data : list (string * pyval)) (w : World) :
  (∃ creds s,
     get_credentials (credential_store w) (_get_session_id ctx) = Ret creds ∧
     (create_sales_order (order_args order_data) ctx w).2 = Ret s ∧
     (create_single_order ctx order_data w).2
     = PDict [ ("success", PBool true);
               ("order", order_tag order_data);
               ("result", PStr s) ]) ∨
  (∃ e,
     get_credentials (credential_store w) (_get_session_id ctx) = Raise e ∧
     (create_single_order ctx order_data w).1 = w ∧
     (create_single_order ctx order_data w).2
     = PDict [ ("success", PBool false);
               ("order", order_tag order_data);
               ("error", PStr (exn_str e)) ]).
Proof.
  unfold create_single_order, create_sales_order.
  set (sid := _get_session_id ctx).
  set (xml := sales_order_xml (order_args order_data)).
  destruct (get_credentials (credential_store w) sid) as [creds|e] eqn:Hc.
  - left. exists creds.
    edestruct (call_service_sends "SO" sid xml w) as ([s Hs] & _).
    { unfold SAPClient_init. simpl. rewrite Hc. reflexivity. }
    destruct (call_service "SO" sid xml w) as [w' r]. simpl in *. subst r.
    by exists s.
  - right. exists e.
    rewrite (call_service_raises "SO" sid xml w e); [done|].
    unfold SAPClient_init. simpl. by rewrite Hc.
Qed.

(** What the pool leaves in the futures: a task that was scheduled has its
    return value in its own slot, every other slot is untouched, and an
    invariant of the world that every task keeps still holds. *)
Lemma run_pool_spec (tasks : list (World → World * pyval)) (Inv : World → Prop) :
  (∀ task w, task ∈ tasks → Inv w → Inv (task w).1) →
  ∀ (schedule : list nat) (w : World) (futures : list (option pyval)),
    Inv w →
    length futures = length tasks →
    Inv (run_pool tasks schedule w futures).1 ∧
    length (run_pool tasks schedule w futures).2 = length tasks ∧
    ∀ i task, tasks !! i = Some task →
      (i ∈ schedule →
         ∃ w_i, Inv w_i ∧
           (run_pool tasks schedule w futures).2 !! i = Some (Some (task w_i).2)) ∧
      (i ∉ schedule →
         (run_pool tasks schedule w futures).2 !! i = futures !! i).
Proof.
  intros Hinv schedule.
  induction schedule as [|i0 rest IH]; intros w futures Hw Hlen.
  - simpl. split; [done|]. split; [done|]. intros i task _.
    split; [by intros ?%elem_of_nil | done].
  - simpl. destruct (tasks !! i0) as [t0|] eqn:Ht0.
    + destruct (t0 w) as [w' r] eqn:Hrun.
      assert (Inv w') as Hw'.
      { replace w' with (t0 w).1 by (by rewrite Hrun).
        apply Hinv; [|done]. by eapply list_elem_of_lookup_2. }
      destruct (IH w' (<[i0 := Some r]> futures) Hw') as (HI & HL & Hslots).
      { by rewrite length_insert. }
      split; [done|]. split; [done|].
      intros i task Hi. destruct (Hslots i task Hi) as [Hin Hout].
      destruct (decide (i ∈ rest)) as [Hrest|Hrest].
      * split; [by intros _; apply Hin | intros Hn; contradict Hn; by right].
      * split.
        -- intros Hsched. apply elem_of_cons in Hsched as [->|?]; [|done].
           exists w. split; [done|]. rewrite Hout by done.
           rewrite list_lookup_insert_eq.
           ++ rewrite Ht0 in Hi. injection Hi as <-. by rewrite Hrun.
           ++ rewrite Hlen. by eapply lookup_lt_Some.
        -- intros Hn. rewrite Hout by done.
           apply list_lookup_insert_ne. intros ->. apply Hn. by left.
    + destruct (IH w futures Hw Hlen) as (HI & HL & Hslots).
      split; [done|]. split; [done|].
      intros i task Hi. destruct (Hslots i task Hi) as [Hin Hout].
      split.
      * intros Hsched. apply elem_of_cons in Hsched as [->|?]; [congruence|].
        by apply Hin.
      * intros Hn. apply Hout. intros ?. apply Hn. by right.
Qed.

Lemma collect_spec (futures : list (option pyval)) :
  (∀ i, i < length futures → ∃ r, futures !! i = Some (Some r)) →
  ∃ results,
    collect futures = Some results ∧
    length results = length futures ∧
    ∀ i r, futures !! i = Some (Some r) → results !! i = Some r.
Proof.
  intros Hdone. unfold collect.
  destruct (mapM_is_Some_2 id futures) as [results Hres].
  { apply Forall_lookup_2. intros i x Hx.
    destruct (Hdone i) as [r Hr]; [by eapply lookup_lt_Some|].
    rewrite Hx in Hr. injection Hr as ->. by eexists. }
  exists results. split; [done|].
  apply mapM_Some_1 in Hres. split.
  - symmetry. by eapply Forall2_length.
  - intros i r Hi.
    destruct (Forall2_lookup_l _ _ _ _ _ Hres Hi) as (y & Hy & Hid).
    simpl in Hid. by injection Hid as <-.
Qed.

(** The batch under a schedule that runs every task once: one result per
    order, at the order's index, produced by [create_single_order] on that
    order in some world with the credential store of the start. *)
Lemma batch_results_spec (orders : list (list (string * pyval)))
    (ctx : option Context) (schedule : list nat) (w : World) :
  schedule ≡ₚ seq 0 (length orders) →
  ∃ results,
    (batch_results orders ctx schedule w).2 = Some results ∧
    length results = length orders ∧
    ∀ i order_data, orders !! i = Some order_data →
      ∃ w_i, credential_store w_i = credential_store w ∧
             results !! i = Some (create_single_order ctx order_data w_i).2.
Proof.
  intros Hperm. unfold batch_results.
  set (tasks := create_single_order ctx <$> orders).
  destruct (run_pool_spec tasks (λ w', credential_store w' = credential_store w))
    with (schedule := schedule) (w := w)
         (futures := replicate (length tasks) (@None pyval))
    as (_ & Hlen & Hslots).
  { intros task w' Htask Hw'. unfold tasks in Htask.
    apply list_elem_of_fmap in Htask as (od & -> & _).
    by rewrite create_single_order_store. }
  { done. }
  { apply length_replicate. }
  destruct (run_pool tasks schedule w _) as [w' futures]. simpl in *.
  assert (length tasks = length orders) as Hlt by apply length_fmap.
  assert (∀ i order_data, orders !! i = Some order_data →
            ∃ w_i, credential_store w_i = credential_store w ∧
              futures !! i = Some (Some (create_single_order ctx order_data w_i).2))
    as Hfut.
  { intros i od Hi.
    assert (tasks !! i = Some (create_single_order ctx od)) as Hti.
    { unfold tasks. by rewrite list_lookup_fmap, Hi. }
    destruct (Hslots i _ Hti) as [Hin _]. apply Hin.
    rewrite Hperm. apply elem_of_seq. apply lookup_lt_Some in Hi. lia. }
  destruct (collect_spec futures) as (results & Hc & Hl & Hr).
  { intros i Hi. rewrite Hlen, Hlt in Hi.
    destruct (lookup_lt_is_Some_2 orders i Hi) as [od Hod].
    destruct (Hfut i od Hod) as (w_i & _ & Hf). eauto. }
  exists results. split; [done|]. split; [congruence|].
  intros i od Hi. destruct (Hfut i od Hi) as (w_i & Hs & Hf).
  exists w_i. split; [done|]. by apply Hr.
Qed.

Lemma order_tag_supplied (order_data : list (string * pyval)) (k : pyval) :
  dict_lookup order_data "CUST_PO" = Some k → order_tag order_data = k.
Proof. unfold order_tag, dict_get. by intros ->. Qed.

Lemma batch_create_sales_orders_dumps (orders : list (list (string * pyval)))
    (ctx : option Context) (schedule : list nat) (w : World) :
  (batch_create_sales_orders orders ctx schedule w).2
  = (λ rs, json_dumps (PList rs)) <$> (batch_results orders ctx schedule w).2.
Proof.
  unfold batch_create_sales_orders.
  by destruct (batch_results orders ctx schedule w).
Qed.

(** C3: whatever the order in which the pool completes the N submitted
    orders, the batch returns N results, the i-th result is the one
    [create_single_order] produced for the i-th order, and its ['order']
    entry is that order's [CUST_PO]. *)
Theorem batch_results_in_input_order (orders : list (list (string * pyval)))
    (ctx : option Context) (schedule : list nat) (w : World) :
  schedule ≡ₚ seq 0 (length orders) →
  ∃ results,
    (batch_results orders ctx schedule w).2 = Some results ∧
    (batch_create_sales_orders orders ctx schedule w).2
    = Some (json_dumps (PList results)) ∧
    length results = length orders ∧
    ∀ i order_data, orders !! i = Some order_data →
      ∃ w_i r,
        results !! i = Some (PDict r) ∧
        (create_single_order ctx order_data w_i).2 = PDict r ∧
        dict_lookup r "order" = Some (order_tag order_data) ∧
        (∀ k, dict_lookup order_data "CUST_PO" = Some k →
              dict_lookup r "order" = Some k).
Proof.
  intros Hperm.
  destruct (batch_results_spec orders ctx schedule w Hperm)
    as (results & Hres & Hlen & Hslots).
  exists results. split; [done|]. split.
  { by rewrite batch_create_sales_orders_dumps, Hres. }
  split; [done|].
  intros i od Hi. destruct (Hslots i od Hi) as (w_i & _ & Hr).
  exists w_i.
  destruct (create_single_order_cases ctx od w_i)
    as [(creds & s & _ & _ & Hc)|(e & _ & _ & Hc)];
    rewrite Hc in Hr; eexists; (split; [exact Hr|]); (split; [exact Hc|]);
    (split; [reflexivity|]); intros k Hk; simpl;
    by rewrite (order_tag_supplied od k).
Qed.

(** What the [success] flag of a batch records.  Every order is reported at
    its own index under its own [CUST_PO]; the flag of an element is false
    only on the [except] path of [create_single_order], which is reached
    only when the credential lookup raised, and true whenever
    [create_sales_order] returned a text, whatever the text says. *)
Lemma batch_reports_each_element (orders : list (list (string * pyval)))
    (ctx : option Context) (schedule : list nat) (w : World) :
  schedule ≡ₚ seq 0 (length orders) →
  ∃ results,
    (batch_results orders ctx schedule w).2 = Some results ∧
    length results = length orders ∧
    ∀ i order_data, orders !! i = Some order_data →
      match get_credentials (credential_store w) (_get_session_id ctx) with
      | Raise e =>
          results !! i
          = Some (PDict [ ("success", PBool false);
                          ("order", order_tag order_data);
                          ("error", PStr (exn_str e)) ])
      | Ret _ =>
          ∃ w_i s,
            (create_sales_order (order_args order_data) ctx w_i).2 = Ret s ∧
            results !! i
            = Some (PDict [ ("success", PBool true);
                            ("order", order_tag order_data);
                            ("result", PStr s) ])
      end.
Proof.
  intros Hperm.
  destruct (batch_results_spec orders ctx schedule w Hperm)
    as (results & Hres & Hlen & Hslots).
  exists results. split; [done|]. split; [done|].
  intros i od Hi. destruct (Hslots i od Hi) as (w_i & Hstore & Hr).
  destruct (create_single_order_cases ctx od w_i)
    as [(creds & s & Hg & Hs & Hc)|(e & Hg & _ & Hc)];
    rewrite Hstore in Hg; rewrite Hg, Hr, Hc.
  - by exists w_i, s.
  - done.
Qed.

(** The path on which the flag goes wrong: when the session has credentials
    and the transport raises for the order's request, [post_soap] has
    already turned the exception into a text, so [create_single_order]
    takes its [try] branch and files the element with [success] true and
    the error text as its [result]. *)
Lemma create_single_order_transport_failure (ctx : option Context)
    (order_data : list (string * pyval)) (w : World) (client : SAPClient) (e : exn) :
  SAPClient_init "SO" (_get_session_id ctx) (credential_store w) = Ret client →
  transport (sent w) (soap_request client (sales_order_xml (order_args order_data)))
  = Raise e →
  (create_single_order ctx order_data w).2
  = PDict [ ("success", PBool true);
            ("order", order_tag order_data);
            ("result",
             PStr (if is_Timeout e
                   then "请求超时：超过 " +:+ pretty REQUEST_TIMEOUT +:+ " 秒未响应"
                   else "连接错误: " +:+ exn_str e)) ].
Proof.
  intros Hclient Hraise.
  unfold create_single_order, create_sales_order, call_service.
  rewrite Hclient. unfold post_soap, session_post. simpl. rewrite Hraise. simpl.
  by destruct (is_Timeout e).
Qed.

(** ** Further properties of the credential store *)

Lemma store_eq (s1 s2 : SessionCredentialStore) :
  _credentials s1 = _credentials s2 →
  _default_credentials s1 = _default_credentials s2 →
  s1 = s2.
Proof. destruct s1, s2. simpl. by intros -> ->. Qed.

Lemma run_ops_app (ops1 ops2 : list store_op) (st : SessionCredentialStore) :
  run_ops (ops1 ++ ops2)%list st = run_ops ops2 (run_ops ops1 st).
Proof. unfold run_ops. apply foldl_app. Qed.

Lemma run_ops_other_sessions (ops : list store_op) (st : SessionCredentialStore) (S : string) :
  Forall (λ o, op_session o ≠ S) ops →
  _credentials (run_ops ops st) !! S = _credentials st !! S.
Proof.
  intros Hops. revert st. induction Hops as [|o ops Ho _ IH]; intros st; [done|].
  unfold run_ops in *. simpl. rewrite IH.
  destruct o as [sid u p|sid]; simpl in *.
  - by rewrite lookup_insert_ne.
  - rewrite lookup_clear_credentials. by case_decide.
Qed.

(** X1: setting a session twice keeps the second pair only, and sets for
    two different sessions give the same store in either order. *)
Theorem set_credentials_compose (st : SessionCredentialStore)
    (A B u1 p1 u2 p2 : string) :
  set_credentials (set_credentials st A u1 p1) A u2 p2 = set_credentials st A u2 p2 ∧
  (A ≠ B →
   set_credentials (set_credentials st A u1 p1) B u2 p2
   = set_credentials (set_credentials st B u2 p2) A u1 p1).
Proof.
  split.
  - apply store_eq; [|done]. simpl. apply insert_insert_eq.
  - intros Hne. apply store_eq; [|done]. simpl. by apply insert_insert_ne.
Qed.

(** X2: clearing a session right after setting it leaves the store as
    clearing alone does; for a session that had no pair the store is back
    to what it was before the set. *)
Theorem set_then_clear_leaves_no_trace (st : SessionCredentialStore) (S u p : string) :
  clear_credentials (set_credentials st S u p) S = clear_credentials st S ∧
  (_credentials st !! S = None →
   clear_credentials (set_credentials st S u p) S = st).
Proof.
  assert (clear_credentials (set_credentials st S u p) S = clear_credentials st S) as Heq.
  { apply store_eq.
    - apply map_eq. intros B. rewrite !lookup_clear_credentials.
      case_decide; [done|]. simpl. by rewrite lookup_insert_ne.
    - by rewrite !default_clear_credentials. }
  split; [done|]. intros Hnone. rewrite Heq.
  unfold clear_credentials. rewrite bool_decide_eq_false_2; [done|].
  rewrite Hnone. by intros [? ?].
Qed.

(** X3: clearing session A changes neither what [get_credentials] returns
    for another session B nor what [has_credentials] answers for it. *)
Theorem clear_credentials_isolation (st : SessionCredentialStore) (A B : string) :
  A ≠ B →
  get_credentials (clear_credentials st A) B = get_credentials st B ∧
  has_credentials (clear_credentials st A) B = has_credentials st B.
Proof.
  intros Hne.
  assert (_credentials (clear_credentials st A) !! B = _credentials st !! B) as Hl.
  { rewrite lookup_clear_credentials. by case_decide. }
  split.
  - apply get_credentials_ext; [done | apply default_clear_credentials].
  - unfold has_credentials. by rewrite Hl, default_clear_credentials.
Qed.

(** X4: a fresh store has a default pair only when both [SAP_USER] and
    [SAP_PASSWORD] are set and non-empty: then every session reads that
    pair; with either one missing or empty, every session is refused. *)
Theorem init_needs_both_variables (SAP_USER SAP_PASSWORD : option string) (S : string) :
  has_credentials (SessionCredentialStore_init SAP_USER SAP_PASSWORD) S
  = env_truthy SAP_USER && env_truthy SAP_PASSWORD ∧
  get_credentials (SessionCredentialStore_init SAP_USER SAP_PASSWORD) S
  = if env_truthy SAP_USER && env_truthy SAP_PASSWORD
    then Ret {| user := default "" SAP_USER; password := default "" SAP_PASSWORD |}
    else Raise (ValueError (not_found_message S)).
Proof.
  unfold has_credentials, get_credentials, SessionCredentialStore_init. simpl.
  rewrite lookup_empty.
  destruct (env_truthy SAP_USER && env_truthy SAP_PASSWORD); by split.
Qed.

(** X5: over any history the last operation issued for a session decides
    what it reads: after a [set] it reads that pair, whatever other
    sessions did before or after; after a [clear] it reads what a store
    with no explicit pairs and the same default gives. *)
Theorem last_operation_decides (ops1 ops2 : list store_op)
    (st : SessionCredentialStore) (S u p : string) :
  Forall (λ o, op_session o ≠ S) ops2 →
  get_credentials (run_ops (ops1 ++ OpSet S u p :: ops2)%list st) S
  = Ret {| user := u; password := p |} ∧
  get_credentials (run_ops (ops1 ++ OpClear S :: ops2)%list st) S
  = get_credentials {| _credentials := ∅;
                       _default_credentials := _default_credentials st |} S.
Proof.
  intros Hops. split.
  - rewrite run_ops_app. change (OpSet S u p :: ops2) with ([OpSet S u p] ++ ops2)%list.
    rewrite run_ops_app. unfold get_credentials.
    rewrite run_ops_other_sessions by done.
    unfold run_ops at 1. simpl. by rewrite lookup_insert_eq.
  - rewrite run_ops_app. change (OpClear S :: ops2) with ([OpClear S] ++ ops2)%list.
    rewrite run_ops_app. apply get_credentials_ext.
    + rewrite run_ops_other_sessions by done.
      unfold run_ops at 1. simpl.
      rewrite lookup_clear_credentials, decide_True by done.
      by rewrite lookup_empty.
    + rewrite default_run_ops. unfold run_ops at 1. simpl.
      by rewrite default_clear_credentials, default_run_ops.
Qed.

(** ** Further properties of session resolution and the session tools *)

Lemma check_session_credentials_unfold (ctx : option Context) (w : World) :
  check_session_credentials ctx w
  = if has_credentials (credential_store w) (_get_session_id ctx) then
      let* creds := get_credentials (credential_store w) (_get_session_id ctx) in
      Ret ("会话 " +:+ _get_session_id ctx +:+ " 已设置凭据（用户：" +:+ user creds +:+ "）")
    else Ret ("会话 " +:+ _get_session_id ctx +:+ " 未设置凭据").
Proof. reflexivity. Qed.

(** X6: when the session carries client parameters the session id is
    derived from them alone, so it is the same in every request of that
    session; a context without a request context resolves to ['default']
    even when it has such a session. *)
Theorem session_id_from_client_params
    (rc1 rc2 : RequestContext) (sess : ServerSession) (cp : pyval) :
  client_params sess = Some cp →
  _get_session_id (Some {| request_context := Some rc1; session := Some sess |})
  = _get_session_id (Some {| request_context := Some rc2; session := Some sess |}) ∧
  _get_session_id (Some {| request_context := None; session := Some sess |})
  = "default".
Proof. intros Hcp. unfold _get_session_id. simpl. by rewrite Hcp. Qed.


(** X8: [check_session_credentials] never raises; right after
    [set_sap_credentials] under the same context it reports the user that
    was set; and the confirmation [set_sap_credentials] returns does not
    depend on the password. *)
Theorem check_after_set (u p p' : string) (ctx : option Context) (w : World) :
  returns (check_session_credentials ctx w) ∧
  check_session_credentials ctx (set_sap_credentials u p ctx w).1
  = Ret ("会话 " +:+ _get_session_id ctx +:+ " 已设置凭据（用户：" +:+ u +:+ "）") ∧
  (set_sap_credentials u p ctx w).2 = (set_sap_credentials u p' ctx w).2.
Proof.
  split; [|split; [|done]].
  - rewrite check_session_credentials_unfold.
    unfold has_credentials, get_credentials, returns.
    destruct (_credentials (credential_store w) !! _get_session_id ctx);
      destruct (_default_credentials (credential_store w)); simpl; eauto.
  - rewrite check_session_credentials_unfold.
    rewrite set_sap_credentials_store.
    unfold has_credentials, get_credentials. simpl.
    by rewrite lookup_insert_eq.
Qed.

(** X9: the pair set through [set_sap_credentials] is the one the next
    operation of the same context authenticates with: the order is sent
    once, with that pair, without certificate verification and under the
    configured timeout. *)
Theorem credentials_set_are_sent (u p : string) (a : SalesOrderArgs)
    (ctx : option Context) (w : World) :
  ∃ req,
    sent (create_sales_order a ctx (set_sap_credentials u p ctx w).1).1
    = (sent w ++ [req])%list ∧
    req_auth req = (u, p) ∧
    req_verify req = false ∧
    req_timeout req = REQUEST_TIMEOUT ∧
    req_data req = soap_envelope (sales_order_xml a).
Proof.
  unfold create_sales_order, call_service, SAPClient_init.
  rewrite set_sap_credentials_store. simpl.
  unfold get_credentials. simpl. rewrite lookup_insert_eq. simpl.
  eexists. split; [reflexivity|]. done.
Qed.

(** ** Further properties of the client and the operation tools *)

Lemma services_lookup_unknown (tbl : list (string * Service)) (key : string) :
  key ∉ tbl.*1 → services_lookup tbl key = Raise (KeyError key).
Proof.
  induction tbl as [|[k v] tbl IH]; intros Hk; [done|]. simpl.
  destruct (String.eqb_spec k key) as [->|Hne].
  - exfalso. apply Hk. simpl. by left.
  - apply IH. intros Hin. apply Hk. simpl. by right.
Qed.

Lemma services_lookup_known (tbl : list (string * Service)) (key : string) :
  key ∈ tbl.*1 → ∃ svc, services_lookup tbl key = Ret svc ∧ (key, svc) ∈ tbl.
Proof.
  induction tbl as [|[k v] tbl IH]; intros Hk; [by apply elem_of_nil in Hk|].
  simpl. destruct (String.eqb_spec k key) as [->|Hne].
  - exists v. split; [done | by left].
  - simpl in Hk. apply elem_of_cons in Hk as [Heq|Hin]; [congruence|].
    destruct (IH Hin) as (svc & Hs & Hm). exists svc. split; [done | by right].
Qed.

(** X10: [SAPClient] looks the service up before the credentials: a key
    outside the catalog raises [KeyError] whether or not the session has
    credentials; for a key of the catalog the client is built exactly when
    the store has credentials for the session, and it carries the
    service's address and action. *)
Theorem SAPClient_init_resolution (key session_id : string)
    (store : SessionCredentialStore) :
  (key ∉ SERVICES.*1 →
   SAPClient_init key session_id store = Raise (KeyError key)) ∧
  (key ∈ SERVICES.*1 →
   (returns (SAPClient_init key session_id store)
    ↔ has_credentials store session_id = true) ∧
   ∀ client, SAPClient_init key session_id store = Ret client →
     (key, {| svc_url := url client; svc_action := action client |}) ∈ SERVICES ∧
     get_credentials store session_id
     = Ret {| user := client_user client; password := client_password client |}).
Proof.
  unfold SAPClient_init. split.
  - intros Hk. by rewrite services_lookup_unknown.
  - intros Hk. destruct (services_lookup_known SERVICES key Hk) as (svc & -> & Hm).
    simpl. unfold has_credentials, get_credentials, returns.
    destruct (_credentials store !! session_id) as [c|];
      destruct (_default_credentials store) as [d|]; simpl.
    + split; [split; eauto|]. intros client [= <-]. simpl.
      split; [by destruct svc | by destruct c].
    + split; [split; eauto|]. intros client [= <-]. simpl.
      split; [by destruct svc | by destruct c].
    + split; [split; eauto|]. intros client [= <-]. simpl.
      split; [by destruct svc | by destruct d].
    + split; [split; [by intros [? ?] | done] | done].
Qed.

(** Proves that a literal key is one of the keys of [SERVICES]. *)
Ltac catalog_key :=
  apply list_elem_of_In; vm_compute;
  repeat first [ left; reflexivity | right ].

Lemma call_service_contract (key : string) (xml : option Context → string) :
  key ∈ SERVICES.*1 →
  tool_contract key (λ ctx w, call_service key (_get_session_id ctx) (xml ctx) w).
Proof.
  intros Hk ctx w.
  destruct (services_lookup_known SERVICES key Hk) as (svc & Hsvc & _).
  destruct (get_credentials (credential_store w) (_get_session_id ctx))
    as [creds|e] eqn:Hc.
  - exists svc, (xml ctx). split; [done|].
    edestruct (call_service_sends key (_get_session_id ctx) (xml ctx) w)
      as (Hr & Hs & Hst).
    { unfold SAPClient_init. rewrite Hsvc, Hc. reflexivity. }
    done.
  - apply call_service_raises. unfold SAPClient_init. by rewrite Hsvc, Hc.
Qed.

(** X11: each of the eight operation tools keeps to [tool_contract] for its
    own service: with credentials for the caller's session it returns and
    sends one request to that service under the session's pair, and it
    never changes the credential store; without credentials it raises the
    store's error and sends nothing.  No tool raises [KeyError]. *)
Theorem operation_tools_contract
    (a : SalesOrderArgs) (b : StoPoArgs) (v1 v2 v3 v4 v5 v6 : pyval) :
  tool_contract "SO" (create_sales_order a) ∧
  tool_contract "STO" (create_sto_po b) ∧
  tool_contract "DN" (create_outbound_delivery v1 v2 v3 v4) ∧
  tool_contract "INF" (maintain_info_record v1 v2 v3 v4 v5 v6) ∧
  tool_contract "MAT" (maintain_sales_view v1 v2 v3 v4 v5 v6) ∧
  tool_contract "MAT" (maintain_warehouse_view v1 v2 v3) ∧
  tool_contract "SRC" (maintain_source_list v1 v2 v3 v4 v5) ∧
  tool_contract "QTY" (change_kitting_qty v1 v2 v3 v4).
Proof.
  repeat split;
    match goal with
    | |- tool_contract ?key _ =>
        refine (call_service_contract key (λ _, _) _);
        catalog_key
    end.
Qed.

Lemma or_default_idempotent (x : pyval) (d : string) :
  or_default (or_default x d) d = or_default x d.
Proof.
  unfold or_default. destruct (truthy x) eqn:Hx; [by rewrite Hx|].
  by destruct (truthy (PStr d)).
Qed.

(** X12: a sales order whose defaulted header fields are empty is rendered,
    and sent, exactly like the order that spells the defaults out: passing
    an empty value and passing the documented default are the same call. *)
Theorem sales_order_defaults_same_request (a : SalesOrderArgs)
    (ctx : option Context) (w : World) :
  sales_order_xml (sales_order_defaults a) = sales_order_xml a ∧
  create_sales_order (sales_order_defaults a) ctx w = create_sales_order a ctx w.
Proof.
  assert (sales_order_xml (sales_order_defaults a) = sales_order_xml a) as Hx.
  { unfold sales_order_xml, sales_order_defaults. simpl.
    by rewrite !or_default_idempotent. }
  split; [done|]. unfold create_sales_order. by rewrite Hx.
Qed.

Lemma or_default_truthy_value (x : pyval) (d : string) :
  d ≠ "" → truthy (or_default x d) = true.
Proof.
  intros Hd. unfold or_default. destruct (truthy x) eqn:Hx; [done|].
  simpl. by destruct d.
Qed.

(** X13: [maintain_sales_view] never sends an empty plant.  For sales
    organisation ['CN60'] on channel ['03'] both plants are ['CP60'], for
    ['TW01'] on ['03'] both are ['TP01'], whatever the caller passed as
    plants; in every other case the caller's plants are used, ['TP01']
    standing in for an empty one. *)
Theorem sales_view_plants_rule (SALES_ORG_ DISTR_CHAN_ PLANT_ DELYG_PLNT_ : pyval) :
  truthy (sales_view_plants SALES_ORG_ DISTR_CHAN_ PLANT_ DELYG_PLNT_).1 = true ∧
  truthy (sales_view_plants SALES_ORG_ DISTR_CHAN_ PLANT_ DELYG_PLNT_).2 = true ∧
  (SALES_ORG_ = PStr "CN60" → DISTR_CHAN_ = PStr "03" →
   sales_view_plants SALES_ORG_ DISTR_CHAN_ PLANT_ DELYG_PLNT_
   = (PStr "CP60", PStr "CP60")) ∧
  (SALES_ORG_ = PStr "TW01" → DISTR_CHAN_ = PStr "03" →
   sales_view_plants SALES_ORG_ DISTR_CHAN_ PLANT_ DELYG_PLNT_
   = (PStr "TP01", PStr "TP01")) ∧
  (DISTR_CHAN_ ≠ PStr "03" ∨ (SALES_ORG_ ≠ PStr "CN60" ∧ SALES_ORG_ ≠ PStr "TW01") →
   sales_view_plants SALES_ORG_ DISTR_CHAN_ PLANT_ DELYG_PLNT_
   = (or_default PLANT_ "TP01", or_default DELYG_PLNT_ "TP01")).
Proof.
  assert (∀ v s, py_eq_str v s = true ↔ v = PStr s) as Heq.
  { intros v s. destruct v; simpl; try (split; [done | by intros [=]]).
    rewrite String.eqb_eq. split; [by intros -> | by intros [= ->]]. }
  unfold sales_view_plants.
  destruct (py_eq_str SALES_ORG_ "CN60") eqn:H1;
    destruct (py_eq_str SALES_ORG_ "TW01") eqn:H2;
    destruct (py_eq_str DISTR_CHAN_ "03") eqn:H3; simpl;
    repeat match goal with
           | H : py_eq_str _ _ = true |- _ => apply Heq in H; subst
           | H : py_eq_str ?v ?s = false |- _ =>
               assert (v ≠ PStr s) by (intros ?%Heq; congruence); clear H
           end;
    rewrite ?or_default_truthy_value by done;
    (split; [done|]); (split; [done|]);
    (split; [try done; by intros; subst|]);
    (split; [try done; by intros; subst|]);
    try done; intros [?|[? ?]]; done.
Qed.

(** X14: the material number of a sales order goes into the request body
    as it was passed, between its tags, with no escaping or trimming. *)
Theorem sales_order_material_verbatim (a : SalesOrderArgs) :
  contains ("<MATERIAL>" +:+ py_str (MATERIAL a) +:+ "</MATERIAL>")
           (sales_order_xml a).
Proof.
  exists ("<urn:ZBAPI_SALESORDER_CREATE>" +:+ uuid_tag (UUID a) +:+
          "<CUST_PO>" +:+ py_str (or_default (CUST_PO a) "TEST_PO") +:+ "</CUST_PO>" +:+
          "<CUST_PO_DATE>" +:+ py_str (or_default (CUST_PO_DATE a) "2025-01-01") +:+
          "</CUST_PO_DATE>" +:+
          "<IT_SO_ITEM><item><MATERIAL_NO>000010</MATERIAL_NO>").
  eexists. unfold sales_order_xml. rewrite !string_app_assoc. reflexivity.
Qed.

Lemma get_first_dict (kvs : list (string * pyval)) (k1 k2 k3 : string) :
  get_first (PDict kvs) k1 k2 k3
  = Ret (py_or (dict_get kvs k1 PNone)
               (py_or (dict_get kvs k2 PNone) (dict_get kvs k3 PNone))).
Proof.
  unfold get_first, py_or. simpl.
  destruct (truthy (dict_get kvs k1 PNone)); [done|].
  by destruct (truthy (dict_get kvs k2 PNone)).
Qed.

(** X15: on status 200 the raw text comes back whenever the parsed document
    gives no usable body: when none of the three envelope names has a
    non-empty value, when the envelope is text instead of a mapping (the
    attribute error is swallowed), and when the envelope has no non-empty
    body under any of the three body names. *)
Theorem interpret_ok_fallbacks (response : Response) (kvs : list (string * pyval)) :
  xmltodict_parse (text response) = Ret (PDict kvs) →
  (truthy (dict_get kvs "soap-env:Envelope" PNone) = false →
   truthy (dict_get kvs "soapenv:Envelope" PNone) = false →
   truthy (dict_get kvs "SOAP-ENV:Envelope" PNone) = false →
   interpret_ok response = Ret (text response)) ∧
  (∀ s, dict_get kvs "soap-env:Envelope" PNone = PStr s → s ≠ "" →
        interpret_ok response = Ret (text response)) ∧
  (∀ env, dict_get kvs "soap-env:Envelope" PNone = PDict env →
          truthy (PDict env) = true →
          truthy (dict_get env "soap-env:Body" PNone) = false →
          truthy (dict_get env "soapenv:Body" PNone) = false →
          truthy (dict_get env "SOAP-ENV:Body" PNone) = false →
          interpret_ok response = Ret (text response)).
Proof.
  intros Hp. unfold interpret_ok. rewrite Hp. cbn [pybind].
  rewrite get_first_dict. cbn [pybind]. unfold py_or.
  split; [|split].
  - intros -> -> H3. by rewrite H3.
  - intros s -> Hs.
    assert (truthy (PStr s) = true) as Ht by (by destruct s).
    by rewrite !Ht.
  - intros env -> Ht H1 H2 H3. rewrite !Ht.
    rewrite get_first_dict. cbn [pybind]. unfold py_or.
    by rewrite H1, H2, H3.
Qed.

(** ** Further properties of the batch tool *)

Lemma create_single_order_world (ctx : option Context)
    (order_data : list (string * pyval)) (w : World) :
  (create_single_order ctx order_data w).1
  = (create_sales_order (order_args order_data) ctx w).1.
Proof.
  unfold create_single_order.
  by destruct (create_sales_order (order_args order_data) ctx w).
Qed.

(** What the pool does to the world when every scheduled index is that of
    an order: with credentials each run appends one request under the
    session's pair, without credentials the world stays as it is. *)
Lemma run_pool_sent (orders : list (list (string * pyval))) (ctx : option Context)
    (schedule : list nat) (w : World) (futures : list (option pyval)) :
  Forall (λ i, i < length orders) schedule →
  match get_credentials (credential_store w) (_get_session_id ctx) with
  | Ret creds =>
      ∃ new,
        credential_store (run_pool (create_single_order ctx <$> orders)
                            schedule w futures).1 = credential_store w ∧
        sent (run_pool (create_single_order ctx <$> orders) schedule w futures).1
        = (sent w ++ new)%list ∧
        length new = length schedule ∧
        Forall (λ r, req_auth r = (user creds, password creds)) new
  | Raise _ =>
      (run_pool (create_single_order ctx <$> orders) schedule w futures).1 = w
  end.
Proof.
  intros Hs. revert w futures.
  induction Hs as [|i rest Hi _ IH]; intros w futures.
  - simpl. destruct (get_credentials _ _); [|done].
    exists []. by rewrite app_nil_r.
  - simpl. destruct (lookup_lt_is_Some_2 orders i Hi) as [od Hod].
    rewrite list_lookup_fmap, Hod. simpl.
    destruct (create_single_order ctx od w) as [w' r] eqn:Hrun.
    assert (w' = (call_service "SO" (_get_session_id ctx)
                    (sales_order_xml (order_args od)) w).1) as Hw'.
    { change (w' = (create_sales_order (order_args od) ctx w).1).
      by rewrite <- create_single_order_world, Hrun. }
    pose proof (call_service_contract "SO"
                  (λ _, sales_order_xml (order_args od))) as Hc.
    specialize (Hc ltac:(catalog_key) ctx w).
    cbv beta in Hc.
    specialize (IH w' (<[i := Some r]> futures)).
    destruct (get_credentials (credential_store w) (_get_session_id ctx))
      as [creds|e] eqn:Hg.
    + destruct Hc as (svc & xml & _ & _ & Hst & Hsent).
      rewrite <- Hw' in Hst, Hsent. rewrite Hst, Hg in IH.
      destruct IH as (new & Hst' & Hsent' & Hlen & Hall).
      eexists (_ :: new). split; [by rewrite Hst'|].
      split; [rewrite Hsent', Hsent, <- app_assoc; reflexivity|].
      split; [simpl; by rewrite Hlen|]. by constructor.
    + rewrite Hc in Hw'. simpl in Hw'. subst w'. by rewrite Hg in IH.
Qed.

(** X16: a batch of N orders under a schedule that runs each once hands
    exactly N requests to the transport, all under the session's pair, when
    the session has credentials, and none when it has not; either way the
    credential store is as before.  An empty batch sends nothing. *)
Theorem batch_sends_one_request_per_order (orders : list (list (string * pyval)))
    (ctx : option Context) (schedule : list nat) (w : World) :
  schedule ≡ₚ seq 0 (length orders) →
  match get_credentials (credential_store w) (_get_session_id ctx) with
  | Ret creds =>
      ∃ new,
        credential_store (batch_results orders ctx schedule w).1
        = credential_store w ∧
        sent (batch_results orders ctx schedule w).1 = (sent w ++ new)%list ∧
        length new = length orders ∧
        Forall (λ r, req_auth r = (user creds, password creds)) new
  | Raise _ => (batch_results orders ctx schedule w).1 = w
  end.
Proof.
  intros Hperm.
  assert (Forall (λ i, i < length orders) schedule) as Hvalid.
  { apply Forall_forall. intros i Hi. rewrite Hperm in Hi.
    apply elem_of_seq in Hi. lia. }
  assert (length schedule = length orders) as Hlen.
  { by rewrite Hperm, length_seq. }
  pose proof (run_pool_sent orders ctx schedule w
                (replicate (length (create_single_order ctx <$> orders)) None)
                Hvalid) as H.
  unfold batch_results.
  destruct (run_pool _ schedule w _) as [w' futures]. simpl in H |- *.
  destruct (get_credentials _ _); [|done].
  destruct H as (new & ? & ? & ? & ?). exists new. by rewrite <- Hlen.
Qed.

(** X17: an order without the key [CUST_PO] is sent exactly like the order
    that names ['TEST_PO'], but its result is filed under ['unknown']. *)
Theorem order_without_CUST_PO (ctx : option Context)
    (order_data : list (string * pyval)) (w : World) :
  dict_lookup order_data "CUST_PO" = None →
  (create_single_order ctx order_data w).1
  = (create_single_order ctx (("CUST_PO", PStr "TEST_PO") :: order_data) w).1 ∧
  ∃ r, (create_single_order ctx order_data w).2 = PDict r ∧
       dict_lookup r "order" = Some (PStr "unknown").
Proof.
  intros Hnone. split.
  - rewrite !create_single_order_world. unfold create_sales_order.
    f_equal. f_equal.
    unfold sales_order_xml, order_args, dict_get. simpl. by rewrite Hnone.
  - destruct (create_single_order_cases ctx order_data w)
      as [(creds & s & _ & _ & ->)|(e & _ & _ & ->)];
      eexists; (split; [reflexivity|]); simpl;
      unfold order_tag, dict_get; by rewrite Hnone.
Qed.

(** ** Properties of the connection provider *)

Lemma thread_local_inv_step (thread : nat) (tl : ThreadLocal) :
  thread_local_inv tl → thread_local_inv (_get_session thread tl).1.
Proof.
  intros [Hcfg Hinj]. unfold _get_session.
  destruct (thread_session tl !! thread) as [s|] eqn:Hs; [done|].
  split; simpl.
  - intros t s Ht. destruct (decide (t = thread)) as [->|Hne].
    + rewrite lookup_insert_eq in Ht. injection Ht as <-. simpl. split; [lia|done].
    + rewrite lookup_insert_ne in Ht by done.
      destruct (Hcfg t s Ht). split; [lia|done].
  - intros t1 t2 s1 s2 H1 H2 Heq.
    destruct (decide (t1 = thread)) as [->|Hn1];
      destruct (decide (t2 = thread)) as [->|Hn2]; [done|..].
    + rewrite lookup_insert_eq in H1. rewrite lookup_insert_ne in H2 by done.
      injection H1 as <-. simpl in Heq. destruct (Hcfg t2 s2 H2). lia.
    + rewrite lookup_insert_eq in H2. rewrite lookup_insert_ne in H1 by done.
      injection H2 as <-. simpl in Heq. destruct (Hcfg t1 s1 H1). lia.
    + rewrite lookup_insert_ne in H1, H2 by done. by eapply Hinj.
Qed.

Lemma thread_local_inv_after_calls (callers : list nat) (tl : ThreadLocal) :
  thread_local_inv tl → thread_local_inv (after_calls callers tl).
Proof.
  revert tl. induction callers as [|t callers IH]; intros tl Htl; [done|].
  unfold after_calls in *. simpl. apply IH. by apply thread_local_inv_step.
Qed.

Lemma after_calls_keeps (callers : list nat) (tl : ThreadLocal) (t : nat) (s : HttpSession) :
  thread_session tl !! t = Some s →
  thread_session (after_calls callers tl) !! t = Some s.
Proof.
  revert tl. induction callers as [|c callers IH]; intros tl Ht; [done|].
  unfold after_calls in *. simpl. apply IH. unfold _get_session.
  destruct (thread_session tl !! c) as [s'|] eqn:Hc; [done|]. simpl.
  rewrite lookup_insert_ne; [done|]. intros ->. congruence.
Qed.

(** X18: [_get_session] gives a thread the session it made on the thread's
    first call: a second call from the same thread returns the same object
    and changes nothing, and a call never touches the session of another
    thread. *)
Theorem get_session_reuses_handle (thread : nat) (tl : ThreadLocal) :
  _get_session thread (_get_session thread tl).1
  = ((_get_session thread tl).1, (_get_session thread tl).2) ∧
  thread_session (_get_session thread tl).1 !! thread
  = Some (_get_session thread tl).2 ∧
  (∀ other, other ≠ thread →
     thread_session (_get_session thread tl).1 !! other
     = thread_session tl !! other).
Proof.
  unfold _get_session.
  destruct (thread_session tl !! thread) as [s|] eqn:Hs; simpl.
  - rewrite Hs. done.
  - rewrite lookup_insert_eq. split; [done|]. split; [done|].
    intros other Hne. by rewrite lookup_insert_ne.
Qed.

(** X19: starting with no sessions, after any sequence of calls from any
    threads, two threads never hold the same session object, every session
    has the adapter with pools of 10 and 20 connections and 3 retries
    mounted for both prefixes, and every thread that called has a session
    while no other thread has one. *)
Theorem sessions_are_per_thread (callers : list nat) (t1 t2 : nat)
    (s1 s2 : HttpSession) :
  thread_session (after_calls callers thread_local_init) !! t1 = Some s1 →
  thread_session (after_calls callers thread_local_init) !! t2 = Some s2 →
  (session_object s1 = session_object s2 → t1 = t2) ∧
  mounts s1 = [ ("https://", {| pool_connections := 10; pool_maxsize := 20;
                                max_retries := 3 |});
                ("http://", {| pool_connections := 10; pool_maxsize := 20;
                               max_retries := 3 |}) ] ∧
  t1 ∈ callers ∧
  (∀ t, t ∈ callers →
        is_Some (thread_session (after_calls callers thread_local_init) !! t)).
Proof.
  intros H1 H2.
  destruct (thread_local_inv_after_calls callers thread_local_init) as [Hcfg Hinj].
  { split; [intros t s Ht | intros ta tb sa sb Ht _ _];
      simpl in Ht; by rewrite lookup_empty in Ht. }
  split; [by eapply Hinj|]. split; [by apply (Hcfg t1 s1)|].
  assert (∀ cs tl t, t ∈ cs → is_Some (thread_session (after_calls cs tl) !! t)) as Hin.
  { clear. intros cs. induction cs as [|c cs IH]; intros tl t Ht;
      [by apply elem_of_nil in Ht|].
    apply elem_of_cons in Ht as [->|Ht].
    - unfold after_calls. simpl. fold (after_calls cs (_get_session c tl).1).
      exists (_get_session c tl).2. apply after_calls_keeps. unfold _get_session.
      destruct (thread_session tl !! c) as [s|] eqn:Hc; [done|].
      simpl. by rewrite lookup_insert_eq.
    - unfold after_calls. simpl. by apply IH. }
  assert (∀ cs tl t, t ∉ cs → thread_session (after_calls cs tl) !! t
                                = thread_session tl !! t) as Hout.
  { clear. intros cs. induction cs as [|c cs IH]; intros tl t Ht; [done|].
    apply not_elem_of_cons in Ht as [Hne Ht].
    unfold after_calls. simpl. fold (after_calls cs (_get_session c tl).1).
    rewrite IH by done. unfold _get_session.
    destruct (thread_session tl !! c) as [s|] eqn:Hc; [done|].
    simpl. by rewrite lookup_insert_ne. }
  split; [|by intros t; apply Hin].
  destruct (decide (t1 ∈ callers)) as [|Hn]; [done|].
  rewrite Hout in H1 by done. simpl in H1. by rewrite lookup_empty in H1.
Qed.

End Agent.

(** ** The statements at concrete inputs *)

Example isolation_at_sample_store :
  get_credentials
    (set_credentials
       (set_credentials (SessionCredentialStore_init None None) "s2" "carol" "pw2")
       "s1" "bob" "pw1") "s2"
  = Ret {| user := "carol"; password := "pw2" |}.
Proof.
  destruct (set_credentials_isolation
              (set_credentials (SessionCredentialStore_init None None) "s2" "carol" "pw2")
              "s1" "s2" "bob" "pw1") as [H _]; [done|].
  rewrite H. vm_compute. reflexivity.
Defined.

Example precedence_at_sample_store :
  get_credentials (credential_store world_without_default) "s1"
  = Raise (ValueError (not_found_message "s1")) ∧
  get_credentials (credential_store world_with_default) "s1"
  = Ret {| user := "alice"; password := "secret" |}.
Proof.
  split.
  - destruct (get_credentials_precedence
                (credential_store world_without_default) "s1") as (_ & _ & _ & H).
    destruct H as (msg & Hmsg & _); [done..|].
    vm_compute. reflexivity.
  - destruct (get_credentials_precedence
                (credential_store world_with_default) "s1") as (_ & _ & H & _).
    by apply H.
Defined.

Example clear_at_sample_store :
  get_credentials
    (clear_credentials
       (set_credentials (SessionCredentialStore_init None None) "s1" "bob" "pw1") "s1")
    "s1"
  = get_credentials
      (run_ops [OpSet "s2" "carol" "pw2"] (SessionCredentialStore_init None None)) "s1".
Proof.
  destruct (clear_credentials_equivalence
              (set_credentials (SessionCredentialStore_init None None) "s1" "bob" "pw1")
              (SessionCredentialStore_init None None)
              [OpSet "s2" "carol" "pw2"] "s1") as (H & _ & _).
  apply H; [done | done |].
  by repeat constructor.
Defined.

Example post_soap_timeout_text :
  (post_soap sample_repr sample_parse 300 flaky_transport sample_client "<x/>"
     {| credential_store := credential_store world_with_default;
        sent := [ soap_request 300 sample_client "<a/>";
                  soap_request 300 sample_client "<b/>" ] |}).2
  = Ret "请求超时：超过 300 秒未响应".
Proof.
  destruct (post_soap_never_raises sample_repr sample_parse 300 flaky_transport
              sample_client "<x/>"
              {| credential_store := credential_store world_with_default;
                 sent := [ soap_request 300 sample_client "<a/>";
                           soap_request 300 sample_client "<b/>" ] |})
    as (_ & _ & H & _).
  by apply (H "Read timed out").
Defined.

Example post_soap_200_and_201_text :
  (post_soap sample_repr sample_parse 300 flaky_transport sample_client "<x/>"
     world_with_default).2 = Ret "created" ∧
  (post_soap sample_repr sample_parse 300 transport_201 sample_client "<x/>"
     world_with_default).2 = Ret ("HTTP Error 201: " +:+ sample_reply).
Proof.
  split.
  - destruct (post_soap_interprets_response sample_repr sample_parse 300
                flaky_transport sample_client "<x/>" world_with_default
                {| status_code := 200; text := sample_reply |} eq_refl) as [H _].
    destruct (H eq_refl) as (_ & _ & H').
    by apply (H' (PDict [ ("soapenv:Envelope", PDict [ ("soapenv:Body", PStr "created") ]) ])
                 (PDict [ ("soapenv:Body", PStr "created") ])
                 (PStr "created")).
  - destruct (post_soap_interprets_response sample_repr sample_parse 300
                transport_201 sample_client "<x/>" world_with_default
                {| status_code := 201; text := sample_reply |} eq_refl) as [_ H].
    rewrite H by done. vm_compute. reflexivity.
Defined.

Example batch_at_sample_schedule :
  ∃ results,
    (batch_results sample_repr sample_hash sample_parse 300 flaky_transport
       sample_orders None [2; 0; 1] world_with_default).2 = Some results ∧
    length results = 3.
Proof.
  destruct (batch_results_in_input_order sample_repr sample_hash sample_parse
              sample_dumps 300 flaky_transport sample_orders None [2; 0; 1]
              world_with_default) as (results & H & _ & Hlen & _).
  - simpl. symmetry. apply Permutation_cons_app with (l1 := [2]) (l2 := [1]).
    apply Permutation_cons_app with (l1 := [2]) (l2 := []). done.
  - by exists results.
Defined.

Example batch_reports_at_sample_schedule :
  ∃ results,
    (batch_results sample_repr sample_hash sample_parse 300 flaky_transport
       sample_orders None [2; 0; 1] world_without_default).2 = Some results ∧
    results !! 1
    = Some (PDict [ ("success", PBool false);
                    ("order", PStr "PO2");
                    ("error", PStr (not_found_message "default")) ]).
Proof.
  destruct (batch_reports_each_element sample_repr sample_hash sample_parse
              300 flaky_transport sample_orders None [2; 0; 1]
              world_without_default) as (results & H & _ & Hslots).
  - simpl. symmetry. apply Permutation_cons_app with (l1 := [2]) (l2 := [1]).
    apply Permutation_cons_app with (l1 := [2]) (l2 := []). done.
  - exists results. split; [done|].
    by apply (Hslots 1 [ ("CUST_PO", PStr "PO2"); ("MATERIAL", PStr "M2");
                         ("QTY", PInt 1) ]).
Defined.


(** C6, as stated, fails: a reply with status 201 and a well-formed envelope
    is not parsed; the caller gets the ['HTTP Error'] text, where status 200
    with the same text gives the body. *)
Example status_201_is_http_error :
  (200 ≤ 201 < 300)%Z ∧
  transport_201 (sent world_with_default) (soap_request 300 sample_client "<x/>")
  = Ret {| status_code := 201; text := sample_reply |} ∧
  interpret_ok sample_repr sample_parse {| status_code := 201; text := sample_reply |}
  = Ret "created" ∧
  (post_soap sample_repr sample_parse 300 transport_201 sample_client "<x/>"
     world_with_default).2
  = Ret ("HTTP Error 201: " +:+ sample_reply).
Proof. split; [lia|]. repeat split; vm_compute; reflexivity. Qed.

(** C7: the code at a failing input.  In a batch of three orders, sent in
    input order by a session with credentials, the second request meets a
    refused connection and the third times out.  Both elements come back
    with [success] true, the error text filed as their [result], where the
    claim has a failing element reported as a failure. *)
Example transport_error_reported_as_success :
  flaky_transport [ soap_request 300 sample_client "<a/>" ]
                  (soap_request 300 sample_client "<b/>")
  = Raise (OtherException "Connection refused") ∧
  flaky_transport [ soap_request 300 sample_client "<a/>";
                    soap_request 300 sample_client "<b/>" ]
                  (soap_request 300 sample_client "<c/>")
  = Raise (Timeout "Read timed out") ∧
  (batch_results sample_repr sample_hash sample_parse 300 flaky_transport
     sample_orders None [0; 1; 2] world_with_default).2
  = Some [ PDict [ ("success", PBool true); ("order", PStr "PO1");
                   ("result", PStr "created") ];
           PDict [ ("success", PBool true); ("order", PStr "PO2");
                   ("result", PStr "连接错误: Connection refused") ];
           PDict [ ("success", PBool true); ("order", PStr "PO3");
                   ("result", PStr "请求超时：超过 300 秒未响应") ] ].
Proof. repeat split; vm_compute; reflexivity. Qed.


Example clear_isolation_at_sample_store :
  get_credentials
    (clear_credentials
       (set_credentials
          (set_credentials (SessionCredentialStore_init None None) "s2" "carol" "pw2")
          "s1" "bob" "pw1") "s1") "s2"
  = Ret {| user := "carol"; password := "pw2" |}.
Proof.
  destruct (clear_credentials_isolation
              (set_credentials
                 (set_credentials (SessionCredentialStore_init None None) "s2" "carol" "pw2")
                 "s1" "bob" "pw1") "s1" "s2") as [H _]; [done|].
  rewrite H. vm_compute. reflexivity.
Defined.

Example last_set_at_sample_history :
  get_credentials
    (run_ops [ OpSet "s1" "old" "x"; OpSet "s1" "bob" "pw1";
               OpSet "s2" "carol" "pw2"; OpClear "s2" ]
       (SessionCredentialStore_init None None)) "s1"
  = Ret {| user := "bob"; password := "pw1" |}.
Proof.
  destruct (last_operation_decides [ OpSet "s1" "old" "x" ]
              [ OpSet "s2" "carol" "pw2"; OpClear "s2" ]
              (SessionCredentialStore_init None None) "s1" "bob" "pw1") as [H _].
  - by repeat constructor.
  - exact H.
Defined.

Example session_id_at_sample_context :
  _get_session_id sample_repr sample_hash
    (Some {| request_context := Some {| request_id := Some (PInt 1) |};
             session := Some {| client_params := Some (PStr "client-A") |} |})
  = _get_session_id sample_repr sample_hash
      (Some {| request_context := Some {| request_id := Some (PInt 2) |};
               session := Some {| client_params := Some (PStr "client-A") |} |}).
Proof.
  by destruct (session_id_from_client_params sample_repr sample_hash
                 {| request_id := Some (PInt 1) |} {| request_id := Some (PInt 2) |}
                 {| client_params := Some (PStr "client-A") |} (PStr "client-A") eq_refl).
Defined.


Example interpret_ok_at_html_reply :
  interpret_ok sample_repr parse_html {| status_code := 200; text := "<html/>" |}
  = Ret "<html/>".
Proof.
  destruct (interpret_ok_fallbacks sample_repr parse_html
              {| status_code := 200; text := "<html/>" |}
              [ ("html", PNone) ] eq_refl) as [H _].
  by apply H.
Defined.

Example batch_without_credentials_sends_nothing :
  (batch_results sample_repr sample_hash sample_parse 300 flaky_transport
     sample_orders None [2; 0; 1] world_without_default).1
  = world_without_default.
Proof.
  apply (batch_sends_one_request_per_order sample_repr sample_hash sample_parse
           300 flaky_transport sample_orders None [2; 0; 1] world_without_default).
  simpl. symmetry. apply Permutation_cons_app with (l1 := [2]) (l2 := [1]).
  apply Permutation_cons_app with (l1 := [2]) (l2 := []). done.
Defined.

Example order_without_CUST_PO_at_sample :
  ∃ r,
    (create_single_order sample_repr sample_hash sample_parse 300 flaky_transport
       None [ ("MATERIAL", PStr "M1") ] world_with_default).2 = PDict r ∧
    dict_lookup r "order" = Some (PStr "unknown").
Proof.
  by destruct (order_without_CUST_PO sample_repr sample_hash sample_parse 300
                 flaky_transport None [ ("MATERIAL", PStr "M1") ]
                 world_with_default eq_refl) as [_ H].
Defined.

Example sessions_of_two_threads :
  (session_object {| session_object := 0;
                     mounts := [ ("https://", {| pool_connections := 10;
                                                 pool_maxsize := 20;
                                                 max_retries := 3 |});
                                 ("http://", {| pool_connections := 10;
                                                pool_maxsize := 20;
                                                max_retries := 3 |}) ] |}
   = session_object {| session_object := 1;
                       mounts := [ ("https://", {| pool_connections := 10;
                                                   pool_maxsize := 20;
                                                   max_retries := 3 |});
                                   ("http://", {| pool_connections := 10;
                                                  pool_maxsize := 20;
                                                  max_retries := 3 |}) ] |}
   → 3 = 5) ∧
  3 ∈ [3; 5; 3].
Proof.
  destruct (sessions_are_per_thread [3; 5; 3] 3 5
              {| session_object := 0;
                 mounts := [ ("https://", {| pool_connections := 10;
                                             pool_maxsize := 20;
                                             max_retries := 3 |});
                             ("http://", {| pool_connections := 10;
                                            pool_maxsize := 20;
                                            max_retries := 3 |}) ] |}
              {| session_object := 1;
                 mounts := [ ("https://", {| pool_connections := 10;
                                             pool_maxsize := 20;
                                             max_retries := 3 |});
                             ("http://", {| pool_connections := 10;
                                            pool_maxsize := 20;
                                            max_retries := 3 |}) ] |})
    as (H1 & _ & H3 & _); [reflexivity | reflexivity |].
  by split.
Defined.
